(** * Strict Grader: rubric models, rubric parser and validator,
      response scorer and multi-pass grading engine.

    A shallow embedding of [src/models.py], [src/rubric/parser.py],
    [src/rubric/validator.py], [src/grading/scorer.py] and
    [src/grading/engine.py], followed by the properties proved of it.

    Conventions of the embedding.
    - A Python [str] is a [string]; the text is ASCII, so that
      [str.lower], [str.strip] and the classes [\s] and [\d] act on single
      characters.  The en dash and the em dash of [SIMPLE_PATTERN] are
      given by their UTF-8 bytes.
    - A [Decimal] is a rational [Q]: a finite decimal, with exact
      arithmetic; comparisons of decimals are the numeric ones
      ([Qeq_bool], [Qle_bool]).  The [float] values of the engine are
      rationals too, so that [float(d)] is [d].
    - A pydantic model is a record; its constructor [new] returns the
      record or raises [ValidationError].
    - A raised exception is the [Raise] alternative of [result]; the
      message of an exception is reduced to its kind and the values it
      reports.
    - [uuid4()], [datetime.utcnow()] and the calls of the language model
      are readings of the environment, given as arguments. *)

From Stdlib Require Import List String Ascii Bool Arith ZArith QArith Qabs.
From Stdlib Require Import Lia Lqa.
From Stdlib Require Import Permutation.
From Stdlib Require DecimalString.
Import ListNotations.
Close Scope Q_scope.
Open Scope string_scope.
Open Scope list_scope.
Open Scope nat_scope.

Set Implicit Arguments.

(* ================================================================== *)
(** * Exceptions *)
(* ================================================================== *)

(** The messages of [ScoringError] (scorer.py). *)
Inductive scoring_msg : Type :=
| NoJsonObject
| UnclosedJsonObject
| InvalidJson
| MissingRequiredField (field : string)
| CriteriaResultsNotAList
| ItemNotAnObject (i : nat)
| MissingCriterionName (i : nat)
| UnknownCriterion (criterion_name : string)
| DuplicateCriterion (criterion_name : string)
| InvalidNumericValue (field_name : string)
| NegativePoints (criterion_name : string) (awarded : Q)
| PointsExceedMax (criterion_name : string) (awarded max : Q)
| MissingJustification (criterion_name : string)
| MissingCriteria (missing_names : list string)
| MaxPossibleMismatch (reported_max rubric_total : Q).

Inductive exn : Type :=
| ValidationError (msg : string)                       (* pydantic *)
| RubricParseError (msg : string) (line_number : option nat)
| ScoringError (msg : scoring_msg)
| LLMError (msg : string)
| TypeError
| KeyError
| StatisticsError.                                     (* statistics.median([]) *)

Inductive result (A : Type) : Type :=
| Ok (a : A)
| Raise (e : exn).
Arguments Ok {A} a.
Arguments Raise {A} e.

Definition bind {A B} (c : result A) (k : A -> result B) : result B :=
  match c with
  | Ok a => k a
  | Raise e => Raise e
  end.

Declare Scope py_scope.
Delimit Scope py_scope with py.
Notation "x <- c ;; k" := (bind c (fun x => k))
  (at level 100, c at level 99, k at level 200) : py_scope.
Notation "'unless' b 'raise' e ;; k" := (if b then k else Raise e)
  (at level 10, b at level 99, e at level 99, k at level 200) : py_scope.
Open Scope py_scope.

(* ================================================================== *)
(** * Python strings *)
(* ================================================================== *)

Definition code (c : ascii) : nat := nat_of_ascii c.

(** [str.lower] on one character. *)
Definition lower_char (c : ascii) : ascii :=
  if (65 <=? code c) && (code c <=? 90) then ascii_of_nat (code c + 32) else c.

Fixpoint lower (s : string) : string :=
  match s with
  | EmptyString => EmptyString
  | String c s' => String (lower_char c) (lower s')
  end.

(** [str.isspace] on one character: tab to carriage return, the four
    separators 0x1c-0x1f and the space. *)
Definition isspace (c : ascii) : bool :=
  ((9 <=? code c) && (code c <=? 13)) || ((28 <=? code c) && (code c <=? 32)).

Definition isdigit (c : ascii) : bool := (48 <=? code c) && (code c <=? 57).

Fixpoint lstrip (s : string) : string :=
  match s with
  | EmptyString => EmptyString
  | String c s' => if isspace c then lstrip s' else s
  end.

Fixpoint rstrip (s : string) : string :=
  match s with
  | EmptyString => EmptyString
  | String c s' =>
      match rstrip s' with
      | EmptyString => if isspace c then EmptyString else String c EmptyString
      | r => String c r
      end
  end.

(** [s.strip()] *)
Definition strip (s : string) : string := rstrip (lstrip s).

(** [s.startswith(p)] *)
Definition startswith (p s : string) : bool := String.prefix p s.

(** [sub in s] *)
Fixpoint contains (sub s : string) : bool :=
  String.prefix sub s ||
  match s with
  | EmptyString => false
  | String _ s' => contains sub s'
  end.

(** A non-empty string is truthy. *)
Definition nonempty (s : string) : bool := negb (String.eqb s "").

(** [s.split(sep)] for a one-character separator. *)
Fixpoint split (sep : ascii) (s : string) : list string :=
  match s with
  | EmptyString => [EmptyString]
  | String c s' =>
      if Ascii.eqb c sep then EmptyString :: split sep s'
      else match split sep s' with
           | [] => [String c EmptyString]
           | w :: ws => String c w :: ws
           end
  end.

(** [sep.join(l)] *)
Fixpoint join (sep : string) (l : list string) : string :=
  match l with
  | [] => EmptyString
  | [x] => x
  | x :: rest => (x ++ sep ++ join sep rest)%string
  end.

(** [str(n)] for a natural number. *)
Definition str_of_nat (n : nat) : string :=
  DecimalString.NilZero.string_of_uint (Nat.to_uint n).

(** [x in l] for a list or a set of strings. *)
Definition mem (x : string) (l : list string) : bool :=
  existsb (String.eqb x) l.

(** [set(l)]: the distinct elements. *)
Definition set_of (l : list string) : list string := nodup string_dec l.

(* ================================================================== *)
(** * Decimals *)
(* ================================================================== *)

Definition Qlt_bool (a b : Q) : bool := negb (Qle_bool b a).

(** [sum(xs, Decimal(0))] *)
Definition sum (xs : list Q) : Q := fold_left Qplus xs 0%Q.

(* ================================================================== *)
(** * models.py *)
(* ================================================================== *)

Module RubricCriterion.

Record t : Type := mk {
  name : string;
  description : string;
  max_points : Q;
  allows_partial_credit : bool
}.

(** The field constraints: [name] has 1 to 200 characters,
    [description] at least one, [0 < max_points <= 1000]. *)
Definition valid (c : t) : bool :=
  (1 <=? String.length (name c)) && (String.length (name c) <=? 200)
  && (1 <=? String.length (description c))
  && Qlt_bool 0 (max_points c) && Qle_bool (max_points c) 1000%Q.

(** [RubricCriterion(name=..., description=..., max_points=...)];
    [allows_partial_credit] defaults to [True]. *)
Definition new (name description : string) (max_points : Q) : result t :=
  let c := mk name description max_points true in
  unless valid c raise ValidationError "RubricCriterion" ;;
  Ok c.

End RubricCriterion.

Module Rubric.

Record t : Type := mk {
  title : string;
  description : string;
  criteria : list RubricCriterion.t
}.

Definition total_max_points (r : t) : Q :=
  sum (map RubricCriterion.max_points (criteria r)).

Definition criterion_count (r : t) : nat := List.length (criteria r).

(** [validate_no_duplicate_names]:
    [names = [c.name for c in self.criteria]] and the test
    [len(names) != len(set(names))]. *)
Definition has_duplicate_names (cs : list RubricCriterion.t) : bool :=
  let names := map RubricCriterion.name cs in
  negb (List.length names =? List.length (set_of names)).

(** [Rubric(title=..., description=..., criteria=...)]: the field
    constraints first, then the model validator. *)
Definition new (title description : string)
           (criteria : list RubricCriterion.t) : result t :=
  unless (1 <=? String.length title) && (String.length title <=? 500)
    raise ValidationError "title" ;;
  unless 1 <=? List.length criteria raise ValidationError "criteria" ;;
  unless negb (has_duplicate_names criteria)
    raise ValidationError "Duplicate criterion names found" ;;
  Ok (mk title description criteria).

End Rubric.

Module CriterionResult.

Record t : Type := mk {
  criterion_name : string;
  max_points : Q;
  awarded_points : Q;
  justification : string;
  deduction_reason : option string
}.

(** [awarded_points >= 0], [justification] non-empty, and the model
    validator [validate_points_range]. *)
Definition valid (r : t) : bool :=
  Qle_bool 0 (awarded_points r)
  && (1 <=? String.length (justification r))
  && negb (Qlt_bool (max_points r) (awarded_points r)).

Definition new (criterion_name : string) (max_points awarded_points : Q)
           (justification : string) (deduction_reason : option string)
  : result t :=
  let r := mk criterion_name max_points awarded_points justification
              deduction_reason in
  unless valid r raise ValidationError "CriterionResult" ;;
  Ok r.

Definition percentage (r : t) : Q :=
  if Qeq_bool (max_points r) 0 then 0%Q
  else (awarded_points r / max_points r * 100)%Q.

End CriterionResult.

Module GradingResult.

(** [submission_id] and [graded_at] come from [uuid4()] and
    [datetime.utcnow()]; here they are given to the constructor. *)
Record t : Type := mk {
  submission_id : N;
  rubric_title : string;
  criteria_results : list CriterionResult.t;
  overall_feedback : string;
  graded_at : N;
  llm_passes_used : Z;
  variance_detected : bool;
  flagged_for_review : bool
}.

Definition valid (g : t) : bool :=
  (1 <=? List.length (criteria_results g))
  && (1 <=? String.length (overall_feedback g))
  && (1 <=? llm_passes_used g)%Z.

Definition new (submission_id : N) (rubric_title : string)
           (criteria_results : list CriterionResult.t)
           (overall_feedback : string) (graded_at : N)
           (llm_passes_used : Z)
           (variance_detected flagged_for_review : bool) : result t :=
  let g := mk submission_id rubric_title criteria_results overall_feedback
              graded_at llm_passes_used variance_detected
              flagged_for_review in
  unless valid g raise ValidationError "GradingResult" ;;
  Ok g.

Definition total_awarded (g : t) : Q :=
  sum (map CriterionResult.awarded_points (criteria_results g)).

Definition total_max (g : t) : Q :=
  sum (map CriterionResult.max_points (criteria_results g)).

Definition percentage_score (g : t) : Q :=
  if Qeq_bool (total_max g) 0 then 0%Q
  else (total_awarded g / total_max g * 100)%Q.

End GradingResult.

(* ================================================================== *)
(** * rubric/validator.py *)
(* ================================================================== *)

Module RubricValidator.

(** The issue texts, with the values their f-strings interpolate. *)
Inductive issue : Type :=
| TitleEmpty
| NoCriteria
| NameTooShort (index : nat) (name : string)
| DescriptionTooShort (index : nat) (name : string)
| VagueWords (index : nat) (name : string) (vague_found : list string)
| PointsExceedMaximum (index : nat) (name : string) (points : Q)
| DuplicateName (name : string) (first_position position : nat)
| TotalNotPositive
| TotalUnusuallyHigh (total : Q).

Definition MIN_DESCRIPTION_LENGTH : nat := 10.

Definition MAX_POINTS_PER_CRITERION : Q := 1000%Q.

(** The frozenset of vague words, in the order of the source. *)
Definition VAGUE_WORDS : list string :=
  [ "good"; "bad"; "nice"; "okay"; "fine"; "appropriate"; "adequate";
    "sufficient"; "reasonable" ].

Definition _validate_structure (rubric : Rubric.t) : list issue :=
  (if nonempty (strip (Rubric.title rubric)) then [] else [TitleEmpty])
  ++ (match Rubric.criteria rubric with [] => [NoCriteria] | _ => [] end).

(** [vague_found = [w for w in self.VAGUE_WORDS if w in description_lower]] *)
Definition vague_found (criterion : RubricCriterion.t) : list string :=
  let description_lower := lower (RubricCriterion.description criterion) in
  filter (fun w => contains w description_lower) VAGUE_WORDS.

Definition _validate_criterion (criterion : RubricCriterion.t) (index : nat)
  : list issue :=
  let name := RubricCriterion.name criterion in
  (if String.length (strip name) <? 2
   then [NameTooShort index name] else [])
  ++ (if String.length (strip (RubricCriterion.description criterion))
         <? MIN_DESCRIPTION_LENGTH
      then [DescriptionTooShort index name] else [])
  ++ (match vague_found criterion with
      | [] => []
      | found => [VagueWords index name found]
      end)
  ++ (if Qlt_bool MAX_POINTS_PER_CRITERION
           (RubricCriterion.max_points criterion)
      then [PointsExceedMaximum index name
              (RubricCriterion.max_points criterion)]
      else []).

(** The dict [seen_names] is an association list. *)
Fixpoint lookup (k : string) (d : list (string * nat)) : option nat :=
  match d with
  | [] => None
  | (k', v) :: d' => if String.eqb k k' then Some v else lookup k d'
  end.

Fixpoint _check_duplicates_from (i : nat) (seen_names : list (string * nat))
         (criteria : list RubricCriterion.t) : list issue :=
  match criteria with
  | [] => []
  | criterion :: rest =>
      let name_lower := strip (lower (RubricCriterion.name criterion)) in
      match lookup name_lower seen_names with
      | Some first =>
          DuplicateName (RubricCriterion.name criterion) first i
          :: _check_duplicates_from (S i) seen_names rest
      | None =>
          _check_duplicates_from (S i) ((name_lower, i) :: seen_names) rest
      end
  end.

Definition _check_duplicates (criteria : list RubricCriterion.t)
  : list issue :=
  _check_duplicates_from 1 [] criteria.

Definition _validate_total_points (rubric : Rubric.t) : list issue :=
  (if Qle_bool (Rubric.total_max_points rubric) 0
   then [TotalNotPositive] else [])
  ++ (if Qlt_bool 1000 (Rubric.total_max_points rubric)
      then [TotalUnusuallyHigh (Rubric.total_max_points rubric)] else []).

Fixpoint _validate_criteria_from (i : nat) (criteria : list RubricCriterion.t)
  : list issue :=
  match criteria with
  | [] => []
  | criterion :: rest =>
      _validate_criterion criterion i ++ _validate_criteria_from (S i) rest
  end.

Definition validate (rubric : Rubric.t) : bool * list issue :=
  let issues :=
    _validate_structure rubric
    ++ _validate_criteria_from 1 (Rubric.criteria rubric)
    ++ _check_duplicates (Rubric.criteria rubric)
    ++ _validate_total_points rubric in
  (match issues with [] => true | _ => false end, issues).

(** The vague-word issues among those reported for a criterion. *)
Definition is_vague_issue (i : issue) : bool :=
  match i with VagueWords _ _ _ => true | _ => false end.

(** [validate_or_raise]: it returns, or raises [RubricValidationError]
    with the issues. *)
Inductive gate : Type :=
| Passed
| RubricValidationError (errors : list issue).

Definition validate_or_raise (rubric : Rubric.t) : gate :=
  let (is_valid, issues) := validate rubric in
  if negb is_valid then RubricValidationError issues else Passed.

End RubricValidator.

(* ================================================================== *)
(** * Regular expressions (the part of [re] the sources use) *)
(* ================================================================== *)

Module Re.

Inductive regex : Type :=
| Eps
| Lit (s : string)              (* literal text *)
| Cls (p : ascii -> bool)       (* a character class *)
| Seq (r1 r2 : regex)
| Alt (r1 r2 : regex)           (* r1|r2, r1 tried first *)
| Star (r : regex)              (* r*, greedy *)
| LazyStar (r : regex)          (* r*?, lazy *)
| Group (i : nat) (r : regex)   (* the i-th capturing group *)
| Bol                           (* ^ *)
| Eol.                          (* $ *)

Definition Plus (r : regex) : regex := Seq r (Star r).
Definition LazyPlus (r : regex) : regex := Seq r (LazyStar r).
Definition Opt (r : regex) : regex := Alt r Eps.
Definition seq (rs : list regex) : regex := fold_right Seq Eps rs.

(** Character classes. *)
Definition space : regex := Cls isspace.                       (* \s *)
Definition digit : regex := Cls isdigit.                       (* \d *)
Definition dot : regex := Cls (fun c => negb (code c =? 10)).  (* . *)
Definition any : regex := Cls (fun _ => true).                 (* [\s\S] *)
Definition one_of (cs : string) : regex :=                     (* [...] *)
  Cls (fun c => contains (String c EmptyString) cs).
Definition none_of (cs : string) : regex :=                    (* [^...] *)
  Cls (fun c => negb (contains (String c EmptyString) cs)).

Definition caps : Type := list (nat * string).

(** [m.group(i)]; the latest binding of a group is first. *)
Fixpoint group (i : nat) (c : caps) : string :=
  match c with
  | [] => EmptyString
  | (j, s) :: c' => if i =? j then s else group i c'
  end.

(** The literal [l] at the head of [s], case folded under IGNORECASE. *)
Fixpoint lit_match (icase : bool) (l s : string) : option string :=
  match l, s with
  | EmptyString, _ => Some s
  | String a l', String b s' =>
      if Ascii.eqb a b || (icase && Ascii.eqb (lower_char a) (lower_char b))
      then lit_match icase l' s' else None
  | String _ _, EmptyString => None
  end.

(** Backtracking matcher in continuation-passing style: [pos] is the
    offset reached in the subject and [s] the text from there on; the
    continuation receives the offset, the rest and the captures.  An
    iteration of a star must move forward, so at most [length s]
    iterations are tried. *)
Fixpoint rmatch (icase : bool) (r : regex) (pos : nat) (s : string) (c : caps)
         (k : nat -> string -> caps -> option caps) {struct r} : option caps :=
  match r with
  | Eps => k pos s c
  | Lit l =>
      match lit_match icase l s with
      | Some s' => k (pos + String.length l) s' c
      | None => None
      end
  | Cls p =>
      match s with
      | String a s' => if p a then k (S pos) s' c else None
      | EmptyString => None
      end
  | Seq r1 r2 =>
      rmatch icase r1 pos s c (fun pos' s' c' => rmatch icase r2 pos' s' c' k)
  | Alt r1 r2 =>
      match rmatch icase r1 pos s c k with
      | Some c' => Some c'
      | None => rmatch icase r2 pos s c k
      end
  | Star r1 =>
      (fix loop (n : nat) (pos : nat) (s : string) (c : caps) : option caps :=
         match n with
         | 0 => k pos s c
         | S n' =>
             match rmatch icase r1 pos s c
                     (fun pos' s' c' =>
                        if pos <? pos' then loop n' pos' s' c' else None) with
             | Some c' => Some c'
             | None => k pos s c
             end
         end) (String.length s) pos s c
  | LazyStar r1 =>
      (fix loop (n : nat) (pos : nat) (s : string) (c : caps) : option caps :=
         match n with
         | 0 => k pos s c
         | S n' =>
             match k pos s c with
             | Some c' => Some c'
             | None =>
                 rmatch icase r1 pos s c
                   (fun pos' s' c' =>
                      if pos <? pos' then loop n' pos' s' c' else None)
             end
         end) (String.length s) pos s c
  | Group i r1 =>
      rmatch icase r1 pos s c
        (fun pos' s' c' => k pos' s' ((i, substring 0 (pos' - pos) s) :: c'))
  | Bol => if pos =? 0 then k pos s c else None
  | Eol =>
      if String.eqb s EmptyString
         || String.eqb s (String (ascii_of_nat 10) EmptyString)
      then k pos s c else None
  end.

(** [pattern.match(s)]; group 0 is the whole match. *)
Definition match_ (icase : bool) (r : regex) (s : string) : option caps :=
  rmatch icase (Group 0 r) 0 s [] (fun _ _ c => Some c).

Fixpoint search_from (icase : bool) (r : regex) (pos : nat) (s : string)
  : option caps :=
  match rmatch icase (Group 0 r) pos s [] (fun _ _ c => Some c) with
  | Some c => Some c
  | None =>
      match s with
      | EmptyString => None
      | String _ s' => search_from icase r (S pos) s'
      end
  end.

(** [re.search(pattern, s)] *)
Definition search (icase : bool) (r : regex) (s : string) : option caps :=
  search_from icase r 0 s.

End Re.

(* ================================================================== *)
(** * rubric/parser.py *)
(* ================================================================== *)

Module RubricParser.
Import Re.

(** [(?:points?|pts?|marks?)] *)
Definition UNIT : regex :=
  Alt (Seq (Lit "point") (Opt (Lit "s")))
      (Alt (Seq (Lit "pt") (Opt (Lit "s")))
           (Seq (Lit "mark") (Opt (Lit "s")))).

(** [\d+(?:\.\d+)?] *)
Definition NUMBER : regex :=
  Seq (Plus digit) (Opt (Seq (Lit ".") (Plus digit))).

(** The class of the hyphen, the en dash (U+2013) and the em dash
    (U+2014), the last two by their UTF-8 bytes. *)
Definition DASH : regex :=
  let dash (b : nat) :=
    String (ascii_of_nat 226)
      (String (ascii_of_nat 128) (String (ascii_of_nat b) EmptyString)) in
  Alt (Lit "-") (Alt (Lit (dash 147)) (Lit (dash 148))).

Definition NUMBERED_PATTERN : regex :=
  seq [ Bol; Star space; Group 1 (Plus digit); Lit "."; Star space;
        Group 2 (Plus (none_of "("));
        Lit "("; Group 3 NUMBER; Star space; UNIT; Lit ")";
        Star (Cls (fun c => Ascii.eqb c ":" || isspace c));
        Group 4 (Star dot); Eol ].

Definition SIMPLE_PATTERN : regex :=
  seq [ Bol; Star space;
        Group 1 (LazyPlus (none_of "-"));
        Star space; DASH; Star space;
        Group 2 NUMBER; Star space; UNIT;
        Star space; DASH; Star space;
        Group 3 (Plus dot); Eol ].

Definition COLON_PATTERN : regex :=
  seq [ Bol; Star space;
        Group 1 (Plus (none_of ":"));
        Lit ":"; Star space;
        Group 2 NUMBER; Star space; UNIT;
        Plus (Cls (fun c => contains (String c EmptyString) ",;:"
                            || isspace c));
        Group 3 (Plus dot); Eol ].

Fixpoint digits_value (s : string) (acc : N) : option N :=
  match s with
  | EmptyString => Some acc
  | String c s' =>
      if isdigit c
      then digits_value s' (acc * 10 + N.of_nat (code c - 48))%N
      else None
  end.

(** [Decimal(s)] on the numerals the patterns capture, digits with an
    optional fraction; any other text is an [InvalidOperation]. *)
Definition Decimal_of_numeral (s : string) : option Q :=
  match split "." s with
  | [i] =>
      if nonempty i
      then option_map (fun n => Qmake (Z.of_N n) 1) (digits_value i 0)
      else None
  | [i; f] =>
      if nonempty i && nonempty f then
        match digits_value i 0, digits_value f 0 with
        | Some a, Some b =>
            let scale := (10 ^ N.of_nat (String.length f))%N in
            Some (Qmake (Z.of_N (a * scale + b)) (Z.to_pos (Z.of_N scale)))
        | _, _ => None
        end
      else None
  | _ => None
  end.

Definition _parse_points (points_str : string) (line_num : nat) : result Q :=
  match Decimal_of_numeral (strip points_str) with
  | Some points =>
      unless negb (Qle_bool points 0)
        raise RubricParseError "Points must be positive" (Some line_num) ;;
      Ok points
  | None => Raise (RubricParseError "Invalid points value" (Some line_num))
  end.

(** [a or b] on strings. *)
Definition or_else (a b : string) : string := if nonempty a then a else b.

Definition _try_numbered_format (line : string) (line_num : nat)
  : result (option RubricCriterion.t) :=
  match match_ true NUMBERED_PATTERN line with
  | Some m =>
      let name := strip (group 2 m) in
      points <- _parse_points (group 3 m) line_num ;;
      let description :=
        or_else (strip (group 4 m)) ("Evaluation of " ++ name)%string in
      c <- RubricCriterion.new name description points ;;
      Ok (Some c)
  | None => Ok None
  end.

Definition _try_simple_format (line : string) (line_num : nat)
  : result (option RubricCriterion.t) :=
  match match_ true SIMPLE_PATTERN line with
  | Some m =>
      let name := strip (group 1 m) in
      points <- _parse_points (group 2 m) line_num ;;
      let description := strip (group 3 m) in
      c <- RubricCriterion.new name description points ;;
      Ok (Some c)
  | None => Ok None
  end.

Definition _try_colon_format (line : string) (line_num : nat)
  : result (option RubricCriterion.t) :=
  match match_ true COLON_PATTERN line with
  | Some m =>
      let name := strip (group 1 m) in
      points <- _parse_points (group 2 m) line_num ;;
      let description := strip (group 3 m) in
      c <- RubricCriterion.new name description points ;;
      Ok (Some c)
  | None => Ok None
  end.

(** [s.replace(old, new)] for a non-empty [old]; [skip] characters of
    a replaced occurrence are still to be dropped. *)
Fixpoint replace_from (old new : string) (skip : nat) (s : string) : string :=
  match s with
  | EmptyString => EmptyString
  | String c s' =>
      match skip with
      | S k => replace_from old new k s'
      | 0 =>
          if String.prefix old s
          then (new ++ replace_from old new (String.length old - 1) s')%string
          else String c (replace_from old new 0 s')
      end
  end.

Definition replace (old new s : string) : string := replace_from old new 0 s.

(** The loop over the cells of a table row; [i] is the index of the
    head of [rest] in [cells]. *)
Fixpoint _table_cells (cells : list string) (line_num : nat) (i : nat)
         (rest : list string) : result (option RubricCriterion.t) :=
  match rest with
  | [] => Ok None
  | cell :: rest' =>
      match search false (Seq (Group 1 NUMBER) (Seq (Star space) (Opt UNIT)))
              cell with
      | Some points_match =>
          points <- _parse_points (group 1 points_match) line_num ;;
          let default_name := ("Criterion " ++ str_of_nat line_num)%string in
          let name :=
            if i =? 0
            then or_else (strip (replace (group 0 points_match) "" cell))
                         default_name
            else or_else (hd EmptyString cells) default_name in
          let description :=
            if i =? 0
            then (if 1 <? List.length cells then join " " (tl cells)
                  else ("Evaluation of " ++ name)%string)
            else (if i + 1 <? List.length cells
                  then join " " (skipn (i + 1) cells)
                  else ("Evaluation of " ++ name)%string) in
          if nonempty name && Qlt_bool 0 points
          then
            c <- RubricCriterion.new name
                   (or_else description ("Evaluation of " ++ name)%string)
                   points ;;
            Ok (Some c)
          else _table_cells cells line_num (S i) rest'
      | None => _table_cells cells line_num (S i) rest'
      end
  end.

Definition _try_table_format (line : string) (line_num : nat)
  : result (option RubricCriterion.t) :=
  if negb (startswith "|" line) then Ok None
  else
    let cells := filter nonempty (map strip (split "|" line)) in
    if List.length cells <? 2 then Ok None
    else _table_cells cells line_num 0 cells.

(** [a or b] on the outcome of two strategies: [b] runs only when [a]
    found nothing. *)
Definition orelse (a : result (option RubricCriterion.t))
           (b : unit -> result (option RubricCriterion.t))
  : result (option RubricCriterion.t) :=
  r <- a ;;
  match r with
  | Some c => Ok (Some c)
  | None => b tt
  end.

(** [set(s) <= {"-", ":"}] *)
Fixpoint only_dashes_and_colons (s : string) : bool :=
  match s with
  | EmptyString => true
  | String c s' =>
      (Ascii.eqb c "-" || Ascii.eqb c ":") && only_dashes_and_colons s'
  end.

(** The loop of [_parse_lines], from line number [line_num] on. *)
Fixpoint _parse_lines_from (line_num : nat) (lines : list string)
  : result (list RubricCriterion.t) :=
  match lines with
  | [] => Ok []
  | line :: rest =>
      let stripped := strip line in
      if negb (nonempty stripped) || startswith "#" stripped
         || startswith "---" stripped
      then _parse_lines_from (S line_num) rest
      else if startswith "|" stripped
              && only_dashes_and_colons (strip (replace "|" "" stripped))
      then _parse_lines_from (S line_num) rest
      else
        criterion <-
          orelse (_try_numbered_format stripped line_num) (fun _ =>
          orelse (_try_simple_format stripped line_num) (fun _ =>
          orelse (_try_colon_format stripped line_num) (fun _ =>
          _try_table_format stripped line_num))) ;;
        criteria <- _parse_lines_from (S line_num) rest ;;
        match criterion with
        | Some c => Ok (c :: criteria)
        | None => Ok criteria
        end
  end.

Definition _parse_lines (lines : list string)
  : result (list RubricCriterion.t) :=
  _parse_lines_from 1 lines.

(** [s.lstrip("#")] *)
Fixpoint lstrip_hash (s : string) : string :=
  match s with
  | String c s' => if Ascii.eqb c "#" then lstrip_hash s' else s
  | EmptyString => EmptyString
  end.

Fixpoint _extract_title (lines : list string) : option string :=
  match lines with
  | [] => None
  | line :: rest =>
      let stripped := strip line in
      if startswith "#" stripped then Some (strip (lstrip_hash stripped))
      else if nonempty stripped
              && match search true (seq [Plus digit; Star space; UNIT])
                         stripped with
                 | Some _ => false
                 | None => true
                 end
      then
        if (String.length stripped <? 100)
           && negb (contains "|" stripped || contains "-" stripped
                    || contains ":" stripped)
        then Some stripped
        else None
      else _extract_title rest
  end.

Definition newline : ascii := ascii_of_nat 10.

Definition parse (content : string) (title : string) : result Rubric.t :=
  unless nonempty content && nonempty (strip content)
    raise RubricParseError "Rubric content is empty" None ;;
  let lines := split newline (strip content) in
  criteria <- _parse_lines lines ;;
  unless (match criteria with [] => false | _ => true end)
    raise RubricParseError "No valid criteria found" None ;;
  let parsed_title :=
    match _extract_title lines with
    | Some t => or_else t title
    | None => title
    end in
  Rubric.new parsed_title "" criteria.

End RubricParser.

(* ================================================================== *)
(** * Values decoded from JSON, and the library functions used on them *)
(* ================================================================== *)

(** What [json.loads] returns.  A number stands for the decimal that
    [Decimal(str(x))] makes of it (a finite one); an object keeps its
    members in order. *)
#[warnings="-register-all"]
Inductive json : Type :=
| JNull
| JBool (b : bool)
| JNum (d : Q)
| JStr (s : string)
| JList (l : list json)
| JDict (members : list (string * json)).

(** Library functions that are not part of the repository. *)
Class PythonRuntime : Type := {
  (** [json.loads]; [None] is a [JSONDecodeError] *)
  json_loads : string -> option json;
  (** [str(v)] for a value [v] that is not a string *)
  repr : json -> string;
  (** [Decimal(text)]; [None] is an [InvalidOperation] *)
  Decimal : string -> option Q;
  (** [str(d)] for a decimal *)
  str_of_Decimal : Q -> string;
  (** [sha256(text.encode("utf-8")).hexdigest()] *)
  sha256_hexdigest : string -> string
}.

(** An insertion-ordered [dict] with string keys. *)
Module Dict.
Section Dict.
Variable V : Type.

Definition t : Type := list (string * V).

Fixpoint get (k : string) (d : t) : option V :=
  match d with
  | [] => None
  | (k', v) :: d' => if String.eqb k k' then Some v else get k d'
  end.

(** [d[k] = v]: an existing key keeps its place. *)
Fixpoint set (k : string) (v : V) (d : t) : t :=
  match d with
  | [] => [(k, v)]
  | (k', v') :: d' =>
      if String.eqb k k' then (k', v) :: d' else (k', v') :: set k v d'
  end.

Definition keys (d : t) : list string := map fst d.
End Dict.
End Dict.

(* ================================================================== *)
(** * grading/scorer.py *)
(* ================================================================== *)

Module ResponseParser.
Section WithRuntime.
Context {py : PythonRuntime}.

(** [str(v)] *)
Definition str (v : json) : string :=
  match v with
  | JStr s => s
  | _ => repr v
  end.

(** [item.get(key, default)] *)
Definition get_default (key : string) (default : json)
           (item : Dict.t json) : json :=
  match Dict.get key item with
  | Some v => v
  | None => default
  end.

(** [Decimal(str(value))]; for a number it is the decimal that the
    number stands for. *)
Definition _parse_decimal (value : json) (field_name : string) : result Q :=
  match value with
  | JNum d => Ok d
  | _ =>
      match Decimal (str value) with
      | Some d => Ok d
      | None => Raise (ScoringError (InvalidNumericValue field_name))
      end
  end.

(** [response.find("{")], as the text from the brace on. *)
Fixpoint from_first_brace (s : string) : option string :=
  match s with
  | EmptyString => None
  | String c s' => if Ascii.eqb c "{" then Some s else from_first_brace s'
  end.

(** The loop that finds the matching closing brace: the text up to
    and including it. *)
Fixpoint until_matching_brace (depth : nat) (s : string) : option string :=
  match s with
  | EmptyString => None
  | String c s' =>
      if Ascii.eqb c "{"
      then option_map (String c) (until_matching_brace (S depth) s')
      else if Ascii.eqb c "}"
      then (if depth - 1 =? 0 then Some (String c EmptyString)
            else option_map (String c) (until_matching_brace (depth - 1) s'))
      else option_map (String c) (until_matching_brace depth s')
  end.

Definition _extract_json (response : string) : result string :=
  match Re.search false
          (Re.seq [ Re.Lit "```"; Re.Opt (Re.Lit "json"); Re.Star Re.space;
                    Re.Group 1 (Re.LazyStar Re.any); Re.Lit "```" ])
          response with
  | Some json_match => Ok (strip (Re.group 1 json_match))
  | None =>
      match from_first_brace response with
      | None => Raise (ScoringError NoJsonObject)
      | Some rest =>
          match until_matching_brace 0 rest with
          | Some text => Ok text
          | None => Raise (ScoringError UnclosedJsonObject)
          end
      end
  end.

(** [rubric_lookup = {c.name.lower(): c for c in rubric.criteria}] *)
Definition rubric_lookup (rubric : Rubric.t) : Dict.t RubricCriterion.t :=
  fold_left (fun d c => Dict.set (lower (RubricCriterion.name c)) c d)
            (Rubric.criteria rubric) [].

(** The partial match: the first entry of the lookup whose key is
    part of the reported name, or the other way round. *)
Fixpoint partial_match (criterion_name_lower : string)
         (items : Dict.t RubricCriterion.t) : option RubricCriterion.t :=
  match items with
  | [] => None
  | (name, crit) :: rest =>
      if contains name criterion_name_lower
         || contains criterion_name_lower name
      then Some crit
      else partial_match criterion_name_lower rest
  end.

(** How a reported name finds its rubric criterion. *)
Definition resolve (lookup : Dict.t RubricCriterion.t)
           (criterion_name : string) : option RubricCriterion.t :=
  match Dict.get (lower criterion_name) lookup with
  | Some c => Some c
  | None => partial_match (lower criterion_name) lookup
  end.

(** [item.get("deduction_reason")] and its normalisation. *)
Definition deduction_reason_of (item : Dict.t json) : option string :=
  match Dict.get "deduction_reason" item with
  | None | Some JNull => None
  | Some v => if String.eqb (str v) "null" then None else Some (str v)
  end.

(** One turn of the loop over [results_data]: the state is the list
    [results] and the set [seen_criteria]. *)
Definition process_item (lookup : Dict.t RubricCriterion.t)
           (i : nat) (item : json)
           (state : list CriterionResult.t * list string)
  : result (list CriterionResult.t * list string) :=
  let (results, seen_criteria) := state in
  match item with
  | JDict item =>
      let criterion_name := str (get_default "criterion" (JStr "") item) in
      unless nonempty criterion_name
        raise ScoringError (MissingCriterionName i) ;;
      match resolve lookup criterion_name with
      | None => Raise (ScoringError (UnknownCriterion criterion_name))
      | Some rubric_criterion =>
          let key := lower (RubricCriterion.name rubric_criterion) in
          unless negb (mem key seen_criteria)
            raise ScoringError (DuplicateCriterion criterion_name) ;;
          let seen_criteria := seen_criteria ++ [key] in
          let max_points := RubricCriterion.max_points rubric_criterion in
          awarded_points <-
            _parse_decimal (get_default "awarded_points" (JNum 0) item)
              ("criteria_results[" ++ str_of_nat i ++ "].awarded_points")
              %string ;;
          unless negb (Qlt_bool awarded_points 0)
            raise ScoringError (NegativePoints criterion_name awarded_points) ;;
          unless negb (Qlt_bool max_points awarded_points)
            raise ScoringError
                    (PointsExceedMax criterion_name awarded_points max_points) ;;
          let justification :=
            str (get_default "justification" (JStr "") item) in
          unless nonempty justification
            raise ScoringError (MissingJustification criterion_name) ;;
          r <- CriterionResult.new (RubricCriterion.name rubric_criterion)
                 max_points awarded_points justification
                 (deduction_reason_of item) ;;
          Ok (results ++ [r], seen_criteria)
      end
  | _ => Raise (ScoringError (ItemNotAnObject i))
  end.

(** [for i, item in enumerate(results_data)], from index [i] on. *)
Fixpoint process_items (lookup : Dict.t RubricCriterion.t) (i : nat)
         (items : list json) (state : list CriterionResult.t * list string)
  : result (list CriterionResult.t * list string) :=
  match items with
  | [] => Ok state
  | item :: rest =>
      state' <- process_item lookup i item state ;;
      process_items lookup (S i) rest state'
  end.

(** [set(rubric_lookup.keys()) - seen_criteria] *)
Definition missing_keys (lookup : Dict.t RubricCriterion.t)
           (seen_criteria : list string) : list string :=
  filter (fun k => negb (mem k seen_criteria)) (Dict.keys lookup).

(** [[rubric_lookup[m].name for m in missing]] *)
Definition missing_names (lookup : Dict.t RubricCriterion.t)
           (missing : list string) : list string :=
  flat_map (fun m => match Dict.get m lookup with
                     | Some c => [RubricCriterion.name c]
                     | None => []
                     end) missing.

Definition _parse_criteria_results (results_data : json) (rubric : Rubric.t)
  : result (list CriterionResult.t) :=
  match results_data with
  | JList items =>
      let lookup := rubric_lookup rubric in
      state <- process_items lookup 0 items ([], []) ;;
      let (results, seen_criteria) := state in
      match missing_keys lookup seen_criteria with
      | [] => Ok results
      | missing =>
          Raise (ScoringError (MissingCriteria (missing_names lookup missing)))
      end
  | _ => Raise (ScoringError CriteriaResultsNotAList)
  end.

(** [field in data] *)
Definition field_in (field : string) (data : json) : result bool :=
  match data with
  | JDict d => Ok (match Dict.get field d with Some _ => true | None => false end)
  | JList l =>
      Ok (existsb (fun v => match v with
                            | JStr s => String.eqb s field
                            | _ => false
                            end) l)
  | JStr s => Ok (contains field s)
  | _ => Raise TypeError
  end.

(** [data[key]] *)
Definition subscript (data : json) (key : string) : result json :=
  match data with
  | JDict d =>
      match Dict.get key d with
      | Some v => Ok v
      | None => Raise KeyError
      end
  | _ => Raise TypeError
  end.

Definition required_fields : list string :=
  ["total_score"; "max_possible"; "criteria_results"; "overall_feedback"].

Fixpoint check_required (fields : list string) (data : json) : result unit :=
  match fields with
  | [] => Ok tt
  | field :: rest =>
      present <- field_in field data ;;
      unless present raise ScoringError (MissingRequiredField field) ;;
      check_required rest data
  end.

(** [submission_id] and [graded_at] are the values that [uuid4()] and
    [datetime.utcnow()] return while the result is built. *)
Definition _validate_and_convert (data : json) (rubric : Rubric.t)
           (submission_id graded_at : N) : result GradingResult.t :=
  _ <- check_required required_fields data ;;
  results_data <- subscript data "criteria_results" ;;
  criteria_results <- _parse_criteria_results results_data rubric ;;
  total_score <- subscript data "total_score" ;;
  reported_total <- _parse_decimal total_score "total_score" ;;
  let calculated_total :=
    sum (map CriterionResult.awarded_points criteria_results) in
  (* a reported total that differs by more than 0.01 is passed over *)
  max_possible <- subscript data "max_possible" ;;
  reported_max <- _parse_decimal max_possible "max_possible" ;;
  unless Qeq_bool reported_max (Rubric.total_max_points rubric)
    raise ScoringError
            (MaxPossibleMismatch reported_max (Rubric.total_max_points rubric)) ;;
  overall_feedback <- subscript data "overall_feedback" ;;
  GradingResult.new submission_id (Rubric.title rubric) criteria_results
    (str overall_feedback) graded_at 1 false false.

Definition parse (response : string) (rubric : Rubric.t)
           (submission_id graded_at : N) : result GradingResult.t :=
  json_str <- _extract_json response ;;
  match json_loads json_str with
  | Some data => _validate_and_convert data rubric submission_id graded_at
  | None => Raise (ScoringError InvalidJson)
  end.

End WithRuntime.
End ResponseParser.

(* ================================================================== *)
(** * statistics.median, max, min *)
(* ================================================================== *)

Fixpoint insert_sorted (x : Q) (l : list Q) : list Q :=
  match l with
  | [] => [x]
  | y :: l' => if Qle_bool x y then x :: l else y :: insert_sorted x l'
  end.

(** [sorted(data)] *)
Definition sorted (data : list Q) : list Q := fold_right insert_sorted [] data.

(** [statistics.median(data)] *)
Definition median (data : list Q) : result Q :=
  let data := sorted data in
  let n := List.length data in
  if n =? 0 then Raise StatisticsError
  else if n mod 2 =? 1 then Ok (nth (n / 2) data 0%Q)
  else
    let i := n / 2 in
    Ok ((nth (i - 1) data 0%Q + nth i data 0%Q) / 2)%Q.

(** [max(xs)] and [min(xs)] of a non-empty list (the value given for
    the empty list is never asked for). *)
Definition max_of (xs : list Q) : Q :=
  match xs with
  | [] => 0%Q
  | x :: rest =>
      fold_left (fun best y => if Qlt_bool best y then y else best) rest x
  end.

Definition min_of (xs : list Q) : Q :=
  match xs with
  | [] => 0%Q
  | x :: rest =>
      fold_left (fun best y => if Qlt_bool y best then y else best) rest x
  end.

(** [min(x :: xs, key=key)]: the first element with the least key. *)
Definition min_by {A : Type} (key : A -> Q) (x : A) (xs : list A) : A :=
  fold_left (fun best y => if Qlt_bool (key y) (key best) then y else best) xs x.

(* ================================================================== *)
(** * grading/engine.py *)
(* ================================================================== *)

Module GradingEngine.

(** The settings the engine reads (config.py). *)
Record Settings : Type := {
  zenmux_model : string;
  grading_passes : Z;
  llm_temperature : Q;
  max_variance_percent : Q
}.

Record GradingPass : Type := mkPass {
  result_ : GradingResult.t;
  raw_response : string;
  total_score : Q
}.

Record AuditRecord : Type := {
  audit_id : N;
  timestamp : N;
  rubric_hash : string;
  answer_hash : string;
  result_hash : string;
  model_used : string;
  temperature : Q;
  passes_count : Z
}.

Section WithEnvironment.
Context {py : PythonRuntime}.
Variable settings : Settings.

(** The outcome of the i-th call of [LLMClient.generate] (the prompts
    are the same at every call), and the i-th readings of [uuid4()]
    and of the clock. *)
Variable generate : nat -> result string.
Variable uuid4 : nat -> N.
Variable utcnow : nat -> N.

(** The loop of [_perform_passes]: [n] calls are left, [i] were made. *)
Fixpoint _passes_loop (rubric : Rubric.t) (n i : nat)
         (passes : list GradingPass) (errors : list exn)
  : result (list GradingPass * list exn) :=
  match n with
  | 0 => Ok (passes, errors)
  | S n' =>
      match (raw_response <- generate i ;;
             r <- ResponseParser.parse raw_response rubric
                    (uuid4 i) (utcnow i) ;;
             Ok (mkPass r raw_response (GradingResult.total_awarded r))) with
      | Ok p => _passes_loop rubric n' (S i) (passes ++ [p]) errors
      | Raise (LLMError m) =>
          _passes_loop rubric n' (S i) passes (errors ++ [LLMError m])
      | Raise (ScoringError m) =>
          _passes_loop rubric n' (S i) passes (errors ++ [ScoringError m])
      | Raise e => Raise e
      end
  end.

Definition _perform_passes (rubric : Rubric.t) (num_passes : Z)
  : result (list GradingPass) :=
  st <- _passes_loop rubric (Z.to_nat num_passes) 0 [] [] ;;
  let (passes, errors) := st in
  match passes, errors with
  | [], e :: _ => Raise e
  | [], [] => Raise (LLMError "No successful grading passes completed")
  | _, _ => Ok passes
  end.

Definition _calculate_variance (passes : list GradingPass) : Q :=
  if List.length passes <? 2 then 0%Q
  else
    let scores := map total_score passes in
    match passes with
    | [] => 0%Q
    | first :: _ =>
        let max_possible := GradingResult.total_max (result_ first) in
        if Qeq_bool max_possible 0 then 0%Q
        else
          let score_range := (max_of scores - min_of scores)%Q in
          (score_range / max_possible * 100)%Q
    end.

Definition _select_result (passes : list GradingPass)
  : result (GradingResult.t * bool) :=
  match passes with
  | [p] => Ok (result_ p, false)
  | _ =>
      let scores := map total_score passes in
      let variance_percent := _calculate_variance passes in
      let variance_detected :=
        Qlt_bool (max_variance_percent settings) variance_percent in
      median_score <- median scores ;;
      match passes with
      | [] => Raise StatisticsError
      | p :: rest =>
          let closest_pass :=
            min_by (fun p => Qabs (total_score p - median_score)) p rest in
          Ok (result_ closest_pass, variance_detected)
      end
  end.

Definition _create_audit (rubric : Rubric.t) (student_answer : string)
           (result : GradingResult.t) (audit_id timestamp : N) : AuditRecord :=
  let nl := String (ascii_of_nat 10) EmptyString in
  let rubric_content :=
    (Rubric.title rubric ++ nl
     ++ join nl
          (map (fun c =>
                  RubricCriterion.name c ++ ": "
                  ++ str_of_Decimal (RubricCriterion.max_points c) ++ " - "
                  ++ RubricCriterion.description c)
               (Rubric.criteria rubric)))%string in
  let result_content :=
    (str_of_Decimal (GradingResult.total_awarded result) ++ "/"
     ++ str_of_Decimal (GradingResult.total_max result) ++ nl
     ++ join nl
          (map (fun r =>
                  CriterionResult.criterion_name r ++ ": "
                  ++ str_of_Decimal (CriterionResult.awarded_points r))
               (GradingResult.criteria_results result)))%string in
  {| audit_id := audit_id;
     timestamp := timestamp;
     rubric_hash := sha256_hexdigest rubric_content;
     answer_hash := sha256_hexdigest student_answer;
     result_hash := sha256_hexdigest result_content;
     model_used := zenmux_model settings;
     temperature := llm_temperature settings;
     passes_count := GradingResult.llm_passes_used result |}.

(** [passes or self._settings.grading_passes] *)
Definition passes_or_default (passes : option Z) : Z :=
  match passes with
  | Some n => if (n =? 0)%Z then grading_passes settings else n
  | None => grading_passes settings
  end.

Definition grade (rubric : Rubric.t) (student_answer : string)
           (passes : option Z) : result (GradingResult.t * AuditRecord) :=
  let num_passes := passes_or_default passes in
  grading_passes <- _perform_passes rubric num_passes ;;
  selected <- _select_result grading_passes ;;
  let (final_result, variance_detected) := selected in
  let stamp := Z.to_nat num_passes in
  final_result_with_meta <-
    GradingResult.new
      (GradingResult.submission_id final_result)
      (GradingResult.rubric_title final_result)
      (GradingResult.criteria_results final_result)
      (GradingResult.overall_feedback final_result)
      (utcnow stamp)
      num_passes
      variance_detected
      (variance_detected
       && Qlt_bool (max_variance_percent settings)
                   (_calculate_variance grading_passes)) ;;
  let audit :=
    _create_audit rubric student_answer final_result_with_meta
      (uuid4 stamp) (utcnow (S stamp)) in
  Ok (final_result_with_meta, audit).

End WithEnvironment.
End GradingEngine.

(* ================================================================== *)
(** * grading/llm_client.py *)
(* ================================================================== *)

Module LLMClient.

(** The arguments of [chat.completions.create]; a message is its role
    and its content. *)
Record request : Type := {
  model : string;
  messages : list (string * string);
  temperature : Q;
  max_tokens : Z
}.

(** What a call of [chat.completions.create] gives: a response, as the
    [message.content] of its choices, or an exception.  The handlers of
    [RateLimitError] and of [APIConnectionError] come before that of
    [APIStatusError]; any other exception is kept by its text. *)
Inductive api_outcome : Type :=
| Response (choices : list (option string))
| RateLimitError
| APIConnectionError
| APIStatusError (status_code : Z) (message : string)
| OtherException (text : string).

(** [LLMError(message, retryable=...)] *)
Record LLMError : Type := mkLLMError { message : string; retryable : bool }.

Inductive outcome : Type :=
| Returns (content : string)
| Raises (e : LLMError).

Definition _max_retries : nat := 3.
Definition _base_delay : Q := 1.
Definition _max_delay : Q := 30.

(** [min(self._base_delay * (2**attempt), self._max_delay)] *)
Definition _calculate_delay (attempt : nat) : Q :=
  let delay := (_base_delay * inject_Z (2 ^ Z.of_nat attempt))%Q in
  if Qlt_bool _max_delay delay then _max_delay else delay.

Section WithAPI.
Variable settings : GradingEngine.Settings.

(** The outcome of the call of [create] at each attempt. *)
Variable create : nat -> request -> api_outcome.

(** The loop of [_call_with_retry]: [n] attempts are left, [attempt]
    were made, and [slept] holds the delays given to [time.sleep] so
    far.  The [LLMError] of an empty response is raised inside the
    [try] and caught by the last handler. *)
Fixpoint _retry_loop (req : request) (n attempt : nat) (slept : list Q)
  : outcome * list Q :=
  match n with
  | 0 =>
      (Raises (mkLLMError
                 ("Failed after " ++ str_of_nat _max_retries ++ " retries")%string
                 false),
       slept)
  | S n' =>
      let unexpected (text : string) :=
        (Raises (mkLLMError ("Unexpected error: " ++ text)%string false), slept) in
      let retry (msg : string) :=
        let delay := _calculate_delay attempt in
        if attempt <? _max_retries
        then _retry_loop req n' (S attempt) (slept ++ [delay])
        else (Raises (mkLLMError msg true), slept) in
      match create attempt req with
      | Response (Some content :: _) =>
          if nonempty content then (Returns content, slept)
          else unexpected "Empty response from LLM"
      | Response _ => unexpected "Empty response from LLM"
      | RateLimitError =>
          retry ("Rate limit exceeded after " ++ str_of_nat _max_retries
                 ++ " retries")%string
      | APIConnectionError =>
          retry ("Connection failed after " ++ str_of_nat _max_retries
                 ++ " retries")%string
      | APIStatusError status_code message =>
          if ((400 <=? status_code)%Z && (status_code <? 500)%Z
              && negb (status_code =? 429)%Z)
          then (Raises (mkLLMError ("API error: " ++ message)%string false), slept)
          else retry ("API error after " ++ str_of_nat _max_retries
                      ++ " retries: " ++ message)%string
      | OtherException text => unexpected text
      end
  end.

Definition _call_with_retry (messages : list (string * string))
           (temperature : Q) (max_tokens : Z) : outcome * list Q :=
  _retry_loop
    {| model := GradingEngine.zenmux_model settings;
       messages := messages;
       temperature := temperature;
       max_tokens := max_tokens |}
    (_max_retries + 1) 0 [].

(** [generate]; [max_tokens] is 8192 when it is not given. *)
Definition generate (system_prompt user_prompt : string)
           (temperature : option Q) (max_tokens : option Z)
  : outcome * list Q :=
  let temp := match temperature with
              | Some t => t
              | None => GradingEngine.llm_temperature settings
              end in
  let messages := [ ("system", system_prompt); ("user", user_prompt) ] in
  _call_with_retry messages temp
    (match max_tokens with Some m => m | None => 8192%Z end).

End WithAPI.
End LLMClient.

(* ================================================================== *)
(** * The reading of the specification, where it is compared with the code *)
(* ================================================================== *)

Definition isalpha (c : ascii) : bool :=
  ((65 <=? code c) && (code c <=? 90)) || ((97 <=? code c) && (code c <=? 122)).

(** The tokens of a text: its maximal runs of letters; [cur] is the run
    being read. *)
Fixpoint tokens_from (cur : string) (s : string) : list string :=
  match s with
  | EmptyString => if nonempty cur then [cur] else []
  | String c s' =>
      if isalpha c then tokens_from (cur ++ String c EmptyString)%string s'
      else (if nonempty cur then [cur] else []) ++ tokens_from EmptyString s'
  end.

(** The specification's wording of the vague-description check: some
    token of the description is, without regard to case, a word of the
    fixed vocabulary. *)
Definition spec_has_vague_token (description : string) : bool :=
  existsb (fun token => mem token RubricValidator.VAGUE_WORDS)
          (tokens_from EmptyString (lower description)).


(* ================================================================== *)
(** * Sample inputs *)
(* ================================================================== *)

Module Sample.

(** Two criteria whose names differ by case only. *)
Definition Content : RubricCriterion.t :=
  RubricCriterion.mk "Content" "Accuracy of the stated facts" 10 true.
Definition content : RubricCriterion.t :=
  RubricCriterion.mk "content" "Depth of the analysis given" 20 true.
Definition case_rubric : Rubric.t :=
  Rubric.mk "Essay Rubric" "" [Content; content].

(** A rubric of two criteria, 30 points in all. *)
Definition Accuracy : RubricCriterion.t :=
  RubricCriterion.mk "Accuracy" "Facts are stated correctly" 10 true.
Definition Clarity20 : RubricCriterion.t :=
  RubricCriterion.mk "Clarity" "Ideas are expressed clearly" 20 true.
Definition rubric : Rubric.t :=
  Rubric.mk "Essay Rubric" "" [Accuracy; Clarity20].

(** A rubric of one criterion worth 100 points. *)
Definition Overall : RubricCriterion.t :=
  RubricCriterion.mk "Overall" "Quality of the whole answer" 100 true.
Definition rubric100 : Rubric.t := Rubric.mk "Essay Rubric" "" [Overall].

(** A description with "fine" inside "Define" and no vague token. *)
Definition Definitions : RubricCriterion.t :=
  RubricCriterion.mk "Definitions" "Define each term precisely" 10 true.

(** A text given by its lines. *)
Definition text (lines : list string) : string :=
  join (String RubricParser.newline EmptyString) lines.

(** The rubric [sample_rubric] of the test fixtures. *)
Definition sample_rubric : Rubric.t :=
  Rubric.mk "Essay Grading Rubric" "Standard essay evaluation rubric"
    [ RubricCriterion.mk "Content Accuracy"
        "The answer demonstrates accurate understanding of the topic with correct facts"
        30 true;
      RubricCriterion.mk "Clarity of Expression"
        "Ideas are expressed clearly and coherently with logical flow"
        25 true;
      RubricCriterion.mk "Supporting Evidence"
        "Claims are supported with relevant examples and evidence"
        25 true;
      RubricCriterion.mk "Conclusion"
        "Essay includes a strong conclusion that summarizes key points"
        20 true ].

Definition LINE : string :=
  "1. Clarity (25 points): Ideas are expressed clearly".
Definition Clarity : RubricCriterion.t :=
  RubricCriterion.mk "Clarity" "Ideas are expressed clearly" 25 true.

(** One entry of [criteria_results]; the [max_points] it echoes is not
    that of any criterion. *)
Definition entry_fields (criterion : string) (awarded_points : Q)
  : Dict.t json :=
  [ ("criterion", JStr criterion);
    ("max_points", JNum 1000);
    ("awarded_points", JNum awarded_points);
    ("justification", JStr "The answer says so in its first line.");
    ("deduction_reason", JNull) ].

Definition entry (criterion : string) (awarded_points : Q) : json :=
  JDict (entry_fields criterion awarded_points).

Definition payload_fields (total_score max_possible : Q) (entries : list json)
  : Dict.t json :=
  [ ("total_score", JNum total_score);
    ("max_possible", JNum max_possible);
    ("criteria_results", JList entries);
    ("overall_feedback", JStr "A sound answer.") ].

Definition payload (total_score max_possible : Q) (entries : list json)
  : json :=
  JDict (payload_fields total_score max_possible entries).

(** A response of the oracle that grades [rubric100] with [score]. *)
Definition payload100 (score : Q) : json :=
  payload score 100 [entry "Overall" score].

(** A stand-in for the library: it decodes three fixed responses and
    reads decimals by [Decimal_of_numeral]. *)
Definition runtime : PythonRuntime := {|
  json_loads := fun text =>
    if String.eqb text "{80}" then Some (payload100 80)
    else if String.eqb text "{85}" then Some (payload100 85)
    else if String.eqb text "{95}" then Some (payload100 95)
    else None;
  repr := fun v =>
    match v with
    | JNull => "None"
    | JBool true => "True"
    | JBool false => "False"
    | _ => "?"
    end;
  Decimal := RubricParser.Decimal_of_numeral;
  str_of_Decimal := fun _ => "?";
  sha256_hexdigest := fun text => text
|}.

Definition settings : GradingEngine.Settings := {|
  GradingEngine.zenmux_model := "test-model";
  GradingEngine.grading_passes := 3;
  GradingEngine.llm_temperature := 0;
  GradingEngine.max_variance_percent := 5
|}.

(** The oracle answers 80, 85 and 95 at its first three calls. *)
Definition generate (i : nat) : result string :=
  match i with
  | 0 => Ok "{80}"
  | 1 => Ok "{85}"
  | 2 => Ok "{95}"
  | _ => Raise (LLMError "rate limit")
  end.

Definition uuid4 (i : nat) : N := N.of_nat i.
Definition utcnow (i : nat) : N := N.of_nat (1000 + i).

(** A pass with one criterion of 100 points and the given score. *)
Definition pass (id : N) (raw_response : string) (score : Q)
  : GradingEngine.GradingPass :=
  GradingEngine.mkPass
    (GradingResult.mk id "Essay Rubric"
       [CriterionResult.mk "Overall" 100 score
          "The answer says so in its first line." None]
       "A sound answer." 0 1 false false)
    raw_response score.

(** The passes that score 80, 85 and 95. *)
Definition passes : list GradingEngine.GradingPass :=
  [pass 0 "{80}" 80; pass 1 "{85}" 85; pass 2 "{95}" 95].

End Sample.

(* ================================================================== *)
(** * Notions used in the statements *)
(* ================================================================== *)

(** A criterion result that its constructor returned. *)
Definition constructed (r : CriterionResult.t) : Prop :=
  exists n m a j d, CriterionResult.new n m a j d = Ok r.

(** Whether a vague-description issue is among those reported. *)
Definition reports_vague (c : RubricCriterion.t) (index : nat) : bool :=
  existsb RubricValidator.is_vague_issue
          (RubricValidator._validate_criterion c index).

(** A list in non-decreasing order. *)
Fixpoint ascending (l : list Q) : Prop :=
  match l with
  | [] => True
  | x :: l' => Forall (fun y => x <= y)%Q l' /\ ascending l'
  end.

(** [m] is at index [i] of [l], no element of [l] has a smaller key, and
    the elements before index [i] have a greater one. *)
Definition first_least {A : Type} (key : A -> Q) (l : list A) (i : nat) (m : A)
  : Prop :=
  nth_error l i = Some m
  /\ forall j y, nth_error l j = Some y ->
                 (key m <= key y)%Q /\ (j < i -> (key m < key y)%Q).

Section Resolution.
Context {py : PythonRuntime}.

(** The name that an entry of [criteria_results] reports. *)
Definition reported_name (item : Dict.t json) : string :=
  ResponseParser.str (ResponseParser.get_default "criterion" (JStr "") item).

(** The lookup key of the rubric criterion that an entry resolves to. *)
Definition resolved_key (lookup : Dict.t RubricCriterion.t) (item : json)
  : option string :=
  match item with
  | JDict item =>
      option_map (fun c => lower (RubricCriterion.name c))
                 (ResponseParser.resolve lookup (reported_name item))
  | _ => None
  end.

(** The keys that the entries of a list resolve to, in order. *)
Definition resolved_keys (lookup : Dict.t RubricCriterion.t)
           (items : list json) : list string :=
  flat_map (fun item => match resolved_key lookup item with
                        | Some k => [k]
                        | None => []
                        end) items.

(** The entry [item] resolves to a rubric criterion, and [r] carries the
    name and the [max_points] of that criterion. *)
Definition graded_as (lookup : Dict.t RubricCriterion.t) (item : json)
           (r : CriterionResult.t) : Prop :=
  exists it c,
    item = JDict it
    /\ ResponseParser.resolve lookup (reported_name it) = Some c
    /\ CriterionResult.criterion_name r = RubricCriterion.name c
    /\ CriterionResult.max_points r = RubricCriterion.max_points c
    /\ CriterionResult.valid r = true.


End Resolution.

(* ================================================================== *)
(** * Notions used in the statements about the passes *)
(* ================================================================== *)

(** The errors that the loop of the passes records and passes over. *)
Definition absorbed (e : exn) : Prop :=
  match e with
  | LLMError _ | ScoringError _ => True
  | _ => False
  end.

Section PassNotions.
Context {py : PythonRuntime}.
Variable generate : nat -> result string.
Variables uuid4 utcnow : nat -> N.
Variable rubric : Rubric.t.

(** The i-th pass: the call of the language model, then the parsing of
    its response. *)
Definition pass_outcome (i : nat) : result GradingEngine.GradingPass :=
  raw_response <- generate i ;;
  r <- ResponseParser.parse raw_response rubric (uuid4 i) (utcnow i) ;;
  Ok (GradingEngine.mkPass r raw_response (GradingResult.total_awarded r)).

(** The passes among the calls [i], ..., [i + n - 1] that succeed, and
    the errors of the others. *)
Definition successes (i n : nat) : list GradingEngine.GradingPass :=
  flat_map (fun j => match pass_outcome j with Ok p => [p] | Raise _ => [] end)
           (seq i n).

Definition failures (i n : nat) : list exn :=
  flat_map (fun j => match pass_outcome j with Ok _ => [] | Raise e => [e] end)
           (seq i n).

End PassNotions.

(* ================================================================== *)
(** * Notions used in the statements about the parsers, the validator
      and the engine *)
(* ================================================================== *)

(** The errors of the line strategies: a [RubricParseError] that carries
    the number of the line, or the [ValidationError] of the criterion. *)
Definition line_error (line_num : nat) (e : exn) : Prop :=
  (exists msg, e = RubricParseError msg (Some line_num))
  \/ (exists msg, e = ValidationError msg).

(** The outcome of a strategy: nothing, a valid criterion, or an error
    of the line. *)
Definition strategy_outcome (line_num : nat)
           (r : result (option RubricCriterion.t)) : Prop :=
  r = Ok None
  \/ (exists c, r = Ok (Some c) /\ RubricCriterion.valid c = true)
  \/ (exists e, r = Raise e /\ line_error line_num e).

(** The key under which the validator compares names. *)
Definition duplicate_key (c : RubricCriterion.t) : string :=
  strip (lower (RubricCriterion.name c)).

(** The checks of the validator on one criterion. *)
Definition criterion_passes (c : RubricCriterion.t) : Prop :=
  2 <= String.length (strip (RubricCriterion.name c))
  /\ 10 <= String.length (strip (RubricCriterion.description c))
  /\ (forall w, In w RubricValidator.VAGUE_WORDS ->
                contains w (lower (RubricCriterion.description c)) = false)
  /\ (RubricCriterion.max_points c <= 1000)%Q.

(** The criterion result that the loop builds from an entry: the name
    and the points of the resolved criterion, the awarded points parsed
    from the entry (0 when the entry has none), its justification and
    its deduction reason. *)
Definition entry_result {py : PythonRuntime}
           (lookup : Dict.t RubricCriterion.t) (item : json)
           (r : CriterionResult.t) : Prop :=
  exists it c a field_name,
    item = JDict it
    /\ ResponseParser.resolve lookup (reported_name it) = Some c
    /\ ResponseParser._parse_decimal
         (ResponseParser.get_default "awarded_points" (JNum 0) it) field_name
       = Ok a
    /\ (0 <= a /\ a <= RubricCriterion.max_points c)%Q
    /\ r = CriterionResult.mk (RubricCriterion.name c)
             (RubricCriterion.max_points c) a
             (ResponseParser.str
                (ResponseParser.get_default "justification" (JStr "") it))
             (ResponseParser.deduction_reason_of it).

(** The failures after which [_call_with_retry] may try again: a rate
    limit, a failed connection, and a status error whose code is not a
    4xx other than 429. *)
Definition transient (o : LLMClient.api_outcome) : bool :=
  match o with
  | LLMClient.RateLimitError | LLMClient.APIConnectionError => true
  | LLMClient.APIStatusError status_code _ =>
      (status_code <? 400)%Z || (500 <=? status_code)%Z
      || (status_code =? 429)%Z
  | _ => false
  end.

(** The request that [_call_with_retry] sends at every attempt. *)
Definition request_of (settings : GradingEngine.Settings)
           (messages : list (string * string)) (temperature : Q)
           (max_tokens : Z) : LLMClient.request :=
  {| LLMClient.model := GradingEngine.zenmux_model settings;
     LLMClient.messages := messages;
     LLMClient.temperature := temperature;
     LLMClient.max_tokens := max_tokens |}.

(** An API that is rate limited, then unavailable, then answers. *)
Definition create_flaky (attempt : nat) (req : LLMClient.request)
  : LLMClient.api_outcome :=
  match attempt with
  | 0 => LLMClient.RateLimitError
  | 1 => LLMClient.APIStatusError 503 "Service unavailable"
  | _ => LLMClient.Response [Some "{85}"]
  end.

(** An API that never answers. *)
Definition create_down (attempt : nat) (req : LLMClient.request)
  : LLMClient.api_outcome :=
  match attempt with
  | 0 => LLMClient.APIConnectionError
  | 1 => LLMClient.RateLimitError
  | 2 => LLMClient.APIStatusError 500 "Internal error"
  | _ => LLMClient.APIStatusError 429 "Slow down"
  end.

(** The issues that the validator can report for a rubric that the
    parser returned: all but those of no criteria, of a total that is
    not positive and of points above the maximum of a criterion. *)
Definition may_follow_parse (i : RubricValidator.issue) : Prop :=
  match i with
  | RubricValidator.NoCriteria
  | RubricValidator.TotalNotPositive
  | RubricValidator.PointsExceedMaximum _ _ _ => False
  | _ => True
  end.

(** The number of occurrences of the character [c] in [s]. *)
Fixpoint count_char (c : ascii) (s : string) : nat :=
  match s with
  | EmptyString => 0
  | String a s' => (if Ascii.eqb a c then 1 else 0) + count_char c s'
  end.

(** A stand-in for the library that decodes one response without
    overall feedback, besides those of [Sample.runtime]. *)
Definition runtime_blank : PythonRuntime := {|
  json_loads := fun text =>
    if String.eqb text "{blank}"
    then Some (JDict [ ("total_score", JNum 85);
                       ("max_possible", JNum 100);
                       ("criteria_results", JList [Sample.entry "Overall" 85]);
                       ("overall_feedback", JStr "") ])
    else @json_loads Sample.runtime text;
  repr := @repr Sample.runtime;
  Decimal := @Decimal Sample.runtime;
  str_of_Decimal := @str_of_Decimal Sample.runtime;
  sha256_hexdigest := @sha256_hexdigest Sample.runtime
|}.

(** The oracle answers 80, then without feedback, then 95. *)
Definition generate_blank (i : nat) : result string :=
  match i with
  | 0 => Ok "{80}"
  | 1 => Ok "{blank}"
  | _ => Ok "{95}"
  end.

(* ================================================================== *)
(** * The cases of the repository's tests, run on the embedding *)
(* ================================================================== *)

(** tests/test_rubric.py, [test_parse_numbered_format] *)
Example test_parse_numbered_format :
  RubricParser.parse
    (Sample.text
       [ "Essay Rubric"; "";
         "1. Content Accuracy (30 points): Answer must be factually correct";
         "2. Clarity (25 points): Ideas must be clearly expressed";
         "3. Evidence (20 points): Claims must be supported with examples";
         "" ])
    "Grading Rubric"
  = Ok (Rubric.mk "Essay Rubric" ""
          [ RubricCriterion.mk "Content Accuracy"
              "Answer must be factually correct" 30 true;
            RubricCriterion.mk "Clarity"
              "Ideas must be clearly expressed" 25 true;
            RubricCriterion.mk "Evidence"
              "Claims must be supported with examples" 20 true ]).
Proof. reflexivity. Qed.

(** [test_parse_simple_dash_format] *)
Example test_parse_simple_dash_format :
  RubricParser.parse
    (Sample.text
       [ "";
         "Content Accuracy - 30 pts - Answer must be factually correct";
         "Clarity - 25 points - Ideas must be clearly expressed";
         "" ])
    "Grading Rubric"
  = Ok (Rubric.mk "Grading Rubric" ""
          [ RubricCriterion.mk "Content Accuracy"
              "Answer must be factually correct" 30 true;
            RubricCriterion.mk "Clarity"
              "Ideas must be clearly expressed" 25 true ]).
Proof. reflexivity. Qed.

(** [test_parse_with_decimal_points] *)
Example test_parse_with_decimal_points :
  exists rubric,
    RubricParser.parse
      (Sample.text
         [ ""; "1. Criterion A (10.5 points): Description A";
           "2. Criterion B (9.5 points): Description B"; "" ])
      "Grading Rubric" = Ok rubric
    /\ (map RubricCriterion.max_points (Rubric.criteria rubric)
        = [105 # 10; 95 # 10])%Q
    /\ (Rubric.total_max_points rubric == 20)%Q.
Proof. eexists. repeat split; reflexivity. Qed.

(** [test_parse_empty_content], [test_parse_whitespace_only] and
    [test_parse_no_valid_criteria] *)
Example test_parse_errors :
  RubricParser.parse "" "Grading Rubric"
  = Raise (RubricParseError "Rubric content is empty" None)
  /\ RubricParser.parse
       (Sample.text ["   "; String (ascii_of_nat 9) EmptyString; "   "])
       "Grading Rubric"
     = Raise (RubricParseError "Rubric content is empty" None)
  /\ RubricParser.parse
       (Sample.text
          [ ""; "This is just some random text";
            "without any valid rubric criteria"; "" ])
       "Grading Rubric"
     = Raise (RubricParseError "No valid criteria found" None).
Proof. repeat split; reflexivity. Qed.

(** [test_parse_markdown_heading], [test_parse_marks_keyword] and
    [test_parse_custom_title] *)
Example test_parse_titles_and_marks :
  RubricParser.parse
    (Sample.text ["# My Rubric"; ""; "1. Criterion (10 points): Description here"; ""])
    "Grading Rubric"
  = Ok (Rubric.mk "My Rubric" ""
          [RubricCriterion.mk "Criterion" "Description here" 10 true])
  /\ RubricParser.parse
       (Sample.text [""; "1. Quality (15 marks): High quality required"; ""])
       "Grading Rubric"
     = Ok (Rubric.mk "Grading Rubric" ""
             [RubricCriterion.mk "Quality" "High quality required" 15 true])
  /\ RubricParser.parse
       (Sample.text [""; "1. Criterion (10 points): Description"; ""])
       "Custom Title"
     = Ok (Rubric.mk "Custom Title" ""
             [RubricCriterion.mk "Criterion" "Description" 10 true]).
Proof. repeat split; reflexivity. Qed.

(** A table row, a colon-separated line and the lines that are passed
    over. *)
Example test_parse_other_formats :
  RubricParser.parse
    (Sample.text
       [ "| Criterion | Points | Description |";
         "|---|---|---|";
         "| Grammar | 10 points | Few errors of grammar |";
         "Style: 5 pts, A consistent register" ])
    "Grading Rubric"
  = Ok (Rubric.mk "Grading Rubric" ""
          [ RubricCriterion.mk "Grammar" "Few errors of grammar" 10 true;
            RubricCriterion.mk "Style" "A consistent register" 5 true ]).
Proof. reflexivity. Qed.

(** [test_validate_valid_rubric], [test_validate_vague_description] and
    [test_validate_duplicate_names] *)
Example test_validate :
  RubricValidator.validate Sample.sample_rubric = (true, [])
  /\ RubricValidator.validate
       (Rubric.mk "Test Rubric" ""
          [RubricCriterion.mk "Criterion A"
             "The answer should be good and appropriate for the question"
             10 true])
     = (false,
        [RubricValidator.VagueWords 1 "Criterion A" ["good"; "appropriate"]])
  /\ Rubric.new "Test Rubric" ""
       [ RubricCriterion.mk "Same Name"
           "Description one that is long enough" 10 true;
         RubricCriterion.mk "Same Name"
           "Description two that is long enough" 10 true ]
     = Raise (ValidationError "Duplicate criterion names found").
Proof. repeat split; reflexivity. Qed.

(** tests/test_grading.py: a response in a markdown block, a text
    without JSON, points above the maximum, negative points, an unknown
    criterion. *)
Example test_extract_json :
  @ResponseParser._extract_json
    (Sample.text ["```json"; "{85}"; "```"]) = Ok "{85}"
  /\ @ResponseParser._extract_json "Here it is: {a{b}c} and more" = Ok "{a{b}c}"
  /\ @ResponseParser._extract_json "this is not json"
     = Raise (ScoringError NoJsonObject)
  /\ @ResponseParser._extract_json "{ never closed"
     = Raise (ScoringError UnclosedJsonObject).
Proof. repeat split; reflexivity. Qed.

Example test_parse_criteria_errors :
  @ResponseParser._validate_and_convert Sample.runtime
    (Sample.payload 150 100 [Sample.entry "Content Accuracy" 50])
    Sample.sample_rubric 1 2
  = Raise (ScoringError (PointsExceedMax "Content Accuracy" 50 30))
  /\ @ResponseParser._validate_and_convert Sample.runtime
       (Sample.payload (-10) 100 [Sample.entry "Content Accuracy" (-5)])
       Sample.sample_rubric 1 2
     = Raise (ScoringError (NegativePoints "Content Accuracy" (-5)))
  /\ @ResponseParser._validate_and_convert Sample.runtime
       (Sample.payload 10 100 [Sample.entry "Unknown Criterion" 10])
       Sample.sample_rubric 1 2
     = Raise (ScoringError (UnknownCriterion "Unknown Criterion"))
  /\ @ResponseParser._validate_and_convert Sample.runtime
       (JDict [("total_score", JNum 50)]) Sample.sample_rubric 1 2
     = Raise (ScoringError (MissingRequiredField "max_possible")).
Proof. repeat split; reflexivity. Qed.

(* ================================================================== *)
(** * Facts about decimals and sums *)
(* ================================================================== *)

Unset Implicit Arguments.

Lemma Qlt_bool_iff (a b : Q) : Qlt_bool a b = true <-> (a < b)%Q.
Proof.
  unfold Qlt_bool. rewrite negb_true_iff. split.
  - intros H. apply Qnot_le_lt. intros Hle.
    apply Qle_bool_iff in Hle. congruence.
  - intros H. destruct (Qle_bool b a) eqn:E; [| reflexivity].
    apply Qle_bool_iff in E. exfalso. apply (Qlt_not_le _ _ H E).
Qed.

Lemma Qlt_bool_false_iff (a b : Q) : Qlt_bool a b = false <-> (b <= a)%Q.
Proof.
  unfold Qlt_bool. rewrite negb_false_iff. apply Qle_bool_iff.
Qed.

Lemma mem_iff (x : string) (l : list string) : mem x l = true <-> In x l.
Proof.
  unfold mem. rewrite existsb_exists. split.
  - intros [y [Hin Heq]]. apply String.eqb_eq in Heq. subst. exact Hin.
  - intros H. exists x. split; [exact H | apply String.eqb_refl].
Qed.

Lemma mem_false_iff (x : string) (l : list string) :
  mem x l = false <-> ~ In x l.
Proof.
  rewrite <- mem_iff. destruct (mem x l); split; congruence.
Qed.

Lemma fold_left_Qplus (xs : list Q) (acc : Q) :
  (fold_left Qplus xs acc == acc + sum xs)%Q.
Proof.
  unfold sum. revert acc.
  induction xs as [| x xs IH]; intros acc; simpl.
  - lra.
  - rewrite (IH (acc + x)%Q), (IH (0 + x)%Q). lra.
Qed.

Lemma sum_cons (x : Q) (xs : list Q) : (sum (x :: xs) == x + sum xs)%Q.
Proof.
  unfold sum at 1. simpl. rewrite fold_left_Qplus. lra.
Qed.

Lemma sum_nil : (sum [] == 0)%Q.
Proof. reflexivity. Qed.

Lemma sum_app (xs ys : list Q) : (sum (xs ++ ys) == sum xs + sum ys)%Q.
Proof.
  induction xs as [| x xs IH]; simpl.
  - rewrite sum_nil. lra.
  - rewrite !sum_cons, IH. lra.
Qed.

(** Sums of pointwise ordered lists are ordered. *)
Lemma sum_bounds {A : Type} (lo hi : A -> Q) (l : list A) :
  Forall (fun x => 0 <= lo x /\ lo x <= hi x)%Q l ->
  (0 <= sum (map lo l) /\ sum (map lo l) <= sum (map hi l))%Q.
Proof.
  induction 1 as [| x l [H0 H1] _ [IH0 IH1]]; simpl.
  - rewrite sum_nil. lra.
  - rewrite !sum_cons. lra.
Qed.

(* ================================================================== *)
(** * Rubric construction and duplicate names *)
(* ================================================================== *)

Lemma length_nodup_le (l : list string) :
  List.length (nodup string_dec l) <= List.length l.
Proof.
  induction l as [| x l IH]; simpl; [lia |].
  destruct (in_dec string_dec x l); simpl; lia.
Qed.

Lemma length_nodup_eq (l : list string) :
  List.length (nodup string_dec l) = List.length l <-> NoDup l.
Proof.
  induction l as [| x l IH]; simpl.
  - split; [constructor | reflexivity].
  - destruct (in_dec string_dec x l) as [Hin | Hnin].
    + split.
      * intros H. pose proof (length_nodup_le l). lia.
      * intros H. inversion H; contradiction.
    + simpl. split.
      * intros H. constructor; [assumption | apply IH; lia].
      * intros H. inversion H; subst. f_equal. apply IH. assumption.
Qed.

(** The model validator of [Rubric] compares the names as they are
    written: it raises exactly when two criteria have the same name. *)
Lemma has_duplicate_names_iff (cs : list RubricCriterion.t) :
  Rubric.has_duplicate_names cs = false <-> NoDup (map RubricCriterion.name cs).
Proof.
  unfold Rubric.has_duplicate_names, set_of.
  rewrite negb_false_iff, Nat.eqb_eq, <- length_nodup_eq.
  split; intros H; symmetry; exact H.
Qed.

Lemma Rubric_new_rejects_equal_names (title description : string)
      (cs : list RubricCriterion.t) :
  ~ NoDup (map RubricCriterion.name cs) ->
  exists e, Rubric.new title description cs = Raise e.
Proof.
  intros Hdup. unfold Rubric.new.
  destruct (_ && _); [| eauto].
  destruct (1 <=? _); [| eauto].
  destruct (Rubric.has_duplicate_names cs) eqn:E; simpl; [eauto |].
  apply has_duplicate_names_iff in E. contradiction.
Qed.

(** The constructor accepts every non-empty list of criteria whose
    names are pairwise different as written. *)
Lemma Rubric_new_accepts_distinct_names (title description : string)
      (cs : list RubricCriterion.t) :
  1 <= String.length title <= 500 ->
  cs <> [] ->
  NoDup (map RubricCriterion.name cs) ->
  Rubric.new title description cs = Ok (Rubric.mk title description cs).
Proof.
  intros [Ht1 Ht2] Hne Hnd. unfold Rubric.new.
  apply Nat.leb_le in Ht1, Ht2. rewrite Ht1, Ht2. cbn [andb].
  destruct cs as [| c cs]; [congruence |]. cbn [List.length Nat.leb].
  apply has_duplicate_names_iff in Hnd. rewrite Hnd. reflexivity.
Qed.

(** The validator's own duplicate check, which folds the case, reports
    the two names that the constructor lets through. *)
Lemma check_duplicates_reports_case_variants :
  RubricValidator._check_duplicates [Sample.Content; Sample.content]
  = [RubricValidator.DuplicateName "content" 1 2].
Proof. reflexivity. Qed.

(** C1. Rubric construction is to reject two criteria whose names are
    equal after case folding.  On the criteria named "Content" and
    "content", whose names are equal once lowered, the constructor
    returns a rubric holding both. *)
Theorem Rubric_new_accepts_case_variants :
  lower (RubricCriterion.name Sample.Content)
  = lower (RubricCriterion.name Sample.content)
  /\ RubricCriterion.new "Content" "Accuracy of the stated facts" 10
     = Ok Sample.Content
  /\ RubricCriterion.new "content" "Depth of the analysis given" 20
     = Ok Sample.content
  /\ Rubric.new "Essay Rubric" "" [Sample.Content; Sample.content]
     = Ok Sample.case_rubric.
Proof. repeat split; reflexivity. Qed.

(* ================================================================== *)
(** * Bounds of the results *)
(* ================================================================== *)

Lemma CriterionResult_valid_bounds (r : CriterionResult.t) :
  CriterionResult.valid r = true ->
  (0 <= CriterionResult.awarded_points r
   /\ CriterionResult.awarded_points r <= CriterionResult.max_points r)%Q.
Proof.
  unfold CriterionResult.valid. rewrite !andb_true_iff, negb_true_iff.
  intros [[H0 _] H1].
  apply Qle_bool_iff in H0. apply Qlt_bool_false_iff in H1. auto.
Qed.

Lemma CriterionResult_new_valid n m a j d r :
  CriterionResult.new n m a j d = Ok r ->
  r = CriterionResult.mk n m a j d /\ CriterionResult.valid r = true.
Proof.
  unfold CriterionResult.new.
  destruct (CriterionResult.valid _) eqn:E; [| discriminate].
  intros H. injection H as <-. auto.
Qed.

Lemma constructed_bounds (r : CriterionResult.t) :
  constructed r ->
  (0 <= CriterionResult.awarded_points r
   /\ CriterionResult.awarded_points r <= CriterionResult.max_points r)%Q.
Proof.
  intros (n & m & a & j & d & H).
  apply CriterionResult_new_valid in H as [_ H].
  apply CriterionResult_valid_bounds, H.
Qed.

Lemma percentage_bounds (a m : Q) :
  (0 <= a)%Q -> (a <= m)%Q -> ~ (m == 0)%Q ->
  (0 <= a / m * 100 /\ a / m * 100 <= 100)%Q.
Proof.
  intros Ha Ham Hm.
  assert (Hpos : (0 < m)%Q) by lra.
  assert (H0 : (0 <= a / m)%Q) by (apply Qle_shift_div_l; lra).
  assert (H1 : (a / m <= 1)%Q) by (apply Qle_shift_div_r; lra).
  lra.
Qed.

(** C2. A [CriterionResult] that its constructor returns has
    [0 <= awarded_points <= max_points]; a [GradingResult] that its
    constructor returns, over criterion results that were constructed,
    has [0 <= total_awarded <= total_max] and
    [0 <= percentage_score <= 100]. *)
Theorem constructed_results_within_bounds :
  (forall n m a j d r,
      CriterionResult.new n m a j d = Ok r ->
      (0 <= CriterionResult.awarded_points r
       /\ CriterionResult.awarded_points r <= CriterionResult.max_points r)%Q)
  /\
  (forall id title crs feedback graded passes vd flagged g,
      Forall constructed crs ->
      GradingResult.new id title crs feedback graded passes vd flagged = Ok g ->
      (0 <= GradingResult.total_awarded g
       /\ GradingResult.total_awarded g <= GradingResult.total_max g)%Q
      /\ (0 <= GradingResult.percentage_score g
          /\ GradingResult.percentage_score g <= 100)%Q).
Proof.
  split.
  - intros n m a j d r H. apply constructed_bounds. unfold constructed. eauto 6.
  - intros id title crs feedback graded passes vd flagged g Hcrs Hnew.
    unfold GradingResult.new in Hnew.
    destruct (GradingResult.valid _); [| discriminate].
    injection Hnew as <-.
    unfold GradingResult.percentage_score, GradingResult.total_awarded,
      GradingResult.total_max. simpl.
    assert (Hb : (0 <= sum (map CriterionResult.awarded_points crs)
                  /\ sum (map CriterionResult.awarded_points crs)
                     <= sum (map CriterionResult.max_points crs))%Q).
    { apply sum_bounds. eapply Forall_impl; [| exact Hcrs].
      intros r Hr. apply constructed_bounds, Hr. }
    split; [exact Hb |].
    destruct (Qeq_bool _ 0) eqn:E.
    + lra.
    + apply percentage_bounds; try tauto.
      intros Heq. apply Qeq_bool_iff in Heq. congruence.
Qed.

Lemma constructed_results_within_bounds_witness :
  let r := CriterionResult.mk "Overall" 100 85 "Quoted from the answer." None in
  (0 <= GradingResult.total_awarded
          (GradingResult.mk 7 "Essay Rubric" [r] "A sound answer." 0 1 false false)
   /\ GradingResult.total_awarded
        (GradingResult.mk 7 "Essay Rubric" [r] "A sound answer." 0 1 false false)
      <= GradingResult.total_max
           (GradingResult.mk 7 "Essay Rubric" [r] "A sound answer." 0 1 false false))%Q
  /\ (0 <= CriterionResult.awarded_points r
      /\ CriterionResult.awarded_points r <= CriterionResult.max_points r)%Q.
Proof.
  intros r.
  destruct constructed_results_within_bounds as [Hc Hg].
  assert (Hr : CriterionResult.new "Overall" 100 85 "Quoted from the answer." None
               = Ok r) by reflexivity.
  split.
  - refine (proj1 (Hg 7%N "Essay Rubric" [r] "A sound answer." 0%N 1%Z false false
                      _ _ _)).
    + constructor; [| constructor]. unfold constructed. eauto 6.
    + reflexivity.
  - exact (Hc _ _ _ _ _ r Hr).
Defined.

(* ================================================================== *)
(** * The vague-description check of the validator *)
(* ================================================================== *)

Lemma vague_issues_of_criterion (c : RubricCriterion.t) (index : nat) :
  filter RubricValidator.is_vague_issue
         (RubricValidator._validate_criterion c index)
  = match RubricValidator.vague_found c with
    | [] => []
    | found => [RubricValidator.VagueWords index (RubricCriterion.name c) found]
    end.
Proof.
  unfold RubricValidator._validate_criterion.
  rewrite !filter_app.
  destruct (String.length (strip (RubricCriterion.name c)) <? 2);
    destruct (String.length (strip (RubricCriterion.description c))
              <? RubricValidator.MIN_DESCRIPTION_LENGTH);
    destruct (Qlt_bool RubricValidator.MAX_POINTS_PER_CRITERION
                       (RubricCriterion.max_points c));
    destruct (RubricValidator.vague_found c); reflexivity.
Qed.

Lemma existsb_filter_nonempty {A : Type} (f : A -> bool) (l : list A) :
  existsb f l = true <-> filter f l <> [].
Proof.
  induction l as [| x l IH]; simpl.
  - split; [discriminate | congruence].
  - destruct (f x); simpl.
    + split; [discriminate | reflexivity].
    + exact IH.
Qed.

Lemma reports_vague_iff_substring (c : RubricCriterion.t) (index : nat) :
  reports_vague c index = true
  <-> exists w, In w RubricValidator.VAGUE_WORDS
                /\ contains w (lower (RubricCriterion.description c)) = true.
Proof.
  unfold reports_vague.
  rewrite existsb_filter_nonempty, vague_issues_of_criterion.
  unfold RubricValidator.vague_found. cbv zeta.
  split.
  - intros H.
    destruct (filter _ RubricValidator.VAGUE_WORDS) as [| w ws] eqn:E;
      [congruence |].
    exists w.
    apply (filter_In
             (fun w => contains w (lower (RubricCriterion.description c)))).
    rewrite E. left. reflexivity.
  - intros [w Hw].
    apply (filter_In
             (fun w => contains w (lower (RubricCriterion.description c))))
      in Hw.
    destruct (filter _ RubricValidator.VAGUE_WORDS); [destruct Hw | discriminate].
Qed.

(** C9, as the code has it.  The validator reports one vague-description
    issue for a criterion, listing every word of the vocabulary that
    occurs as a substring of the lowered description, and it reports the
    issue exactly when there is such a word. *)
Theorem vague_issue_iff_vocabulary_substring
        (c : RubricCriterion.t) (index : nat) :
  filter RubricValidator.is_vague_issue
         (RubricValidator._validate_criterion c index)
  = match RubricValidator.vague_found c with
    | [] => []
    | found => [RubricValidator.VagueWords index (RubricCriterion.name c) found]
    end
  /\ (forall w,
         In w (RubricValidator.vague_found c)
         <-> In w RubricValidator.VAGUE_WORDS
             /\ contains w (lower (RubricCriterion.description c)) = true)
  /\ (reports_vague c index = true
      <-> exists w, In w RubricValidator.VAGUE_WORDS
                    /\ contains w (lower (RubricCriterion.description c)) = true).
Proof.
  assert (Hfound : forall w,
             In w (RubricValidator.vague_found c)
             <-> In w RubricValidator.VAGUE_WORDS
                 /\ contains w (lower (RubricCriterion.description c)) = true).
  { intros w. unfold RubricValidator.vague_found. cbv zeta.
    rewrite filter_In. reflexivity. }
  split; [apply vague_issues_of_criterion |].
  split; [exact Hfound |].
  apply reports_vague_iff_substring.
Qed.

(** C9, as the specification words it, fails: the description
    "Define each term precisely" has no vague token, yet the validator
    reports the word "fine", which it finds inside "Define". *)
Lemma vague_issue_without_vague_token :
  RubricCriterion.new "Definitions" "Define each term precisely" 10
  = Ok Sample.Definitions
  /\ RubricValidator._validate_criterion Sample.Definitions 1
     = [RubricValidator.VagueWords 1 "Definitions" ["fine"]]
  /\ reports_vague Sample.Definitions 1 = true
  /\ spec_has_vague_token (RubricCriterion.description Sample.Definitions) = false.
Proof. repeat split; reflexivity. Qed.

Lemma append_empty_r (s : string) : (s ++ "")%string = s.
Proof. induction s as [| c s IH]; simpl; [reflexivity | rewrite IH; reflexivity]. Qed.

Lemma append_assoc (s1 s2 s3 : string) :
  ((s1 ++ s2) ++ s3)%string = (s1 ++ (s2 ++ s3))%string.
Proof.
  induction s1 as [| c s1 IH]; simpl; [reflexivity | rewrite IH; reflexivity].
Qed.

Lemma prefix_contains (p s : string) :
  String.prefix p s = true -> contains p s = true.
Proof. intros H. destruct s; cbn [contains]; rewrite H; reflexivity. Qed.

Lemma contains_cons (t : string) (c : ascii) (s : string) :
  contains t s = true -> contains t (String c s) = true.
Proof. intros H. cbn [contains]. rewrite H. apply orb_true_r. Qed.

(** A token of a text is the run being read followed by a prefix of the
    text, or it lies inside the text. *)
Lemma tokens_from_inside (s : string) :
  forall cur t,
    In t (tokens_from cur s) ->
    (exists run, t = (cur ++ run)%string /\ String.prefix run s = true)
    \/ contains t s = true.
Proof.
  induction s as [| c s IH]; intros cur t Hin; cbn [tokens_from] in Hin.
  - destruct (nonempty cur); [| destruct Hin].
    destruct Hin as [<- | []]. left. exists EmptyString.
    rewrite append_empty_r. split; reflexivity.
  - destruct (isalpha c).
    + destruct (IH _ _ Hin) as [(run & -> & Hrun) | Hc].
      * left. exists (String c run). rewrite append_assoc. split; [reflexivity |].
        cbn [String.prefix]. destruct (ascii_dec c c); [exact Hrun | congruence].
      * right. apply contains_cons, Hc.
    + apply in_app_or in Hin. destruct Hin as [Hin | Hin].
      * destruct (nonempty cur); [| destruct Hin].
        destruct Hin as [<- | []]. left. exists EmptyString.
        rewrite append_empty_r. split; reflexivity.
      * right. apply contains_cons.
        destruct (IH _ _ Hin) as [(run & -> & Hrun) | Hc]; [| exact Hc].
        apply prefix_contains, Hrun.
Qed.

(** A vague token is also a vague substring: where the specification's
    reading finds a vague word, the validator reports one. *)
Lemma vague_token_is_reported (c : RubricCriterion.t) (index : nat) :
  spec_has_vague_token (RubricCriterion.description c) = true ->
  reports_vague c index = true.
Proof.
  unfold spec_has_vague_token. rewrite existsb_exists.
  intros (t & Hin & Hmem). apply mem_iff in Hmem.
  apply reports_vague_iff_substring. exists t. split; [exact Hmem |].
  destruct (tokens_from_inside _ _ _ Hin) as [(run & -> & Hrun) | Hc];
    [apply prefix_contains, Hrun | exact Hc].
Qed.

(* ================================================================== *)
(** * The numbered line format *)
(* ================================================================== *)

Lemma try_numbered_format_LINE (line_num : nat) :
  RubricParser._try_numbered_format Sample.LINE line_num
  = Ok (Some Sample.Clarity).
Proof. reflexivity. Qed.

(** A line that strips to the numbered sample line is kept by the loop
    over the lines, whatever its number. *)
Lemma parse_lines_from_keeps_LINE (lines : list string) :
  forall line_num criteria line,
    RubricParser._parse_lines_from line_num lines = Ok criteria ->
    In line lines -> strip line = Sample.LINE ->
    In Sample.Clarity criteria.
Proof.
  induction lines as [| l lines IH]; intros line_num criteria line Hp Hin Hs.
  - destruct Hin.
  - destruct Hin as [-> | Hin].
    + cbn [RubricParser._parse_lines_from] in Hp. rewrite Hs in Hp.
      change (negb (nonempty Sample.LINE) || startswith "#" Sample.LINE
              || startswith "---" Sample.LINE) with false in Hp.
      change (startswith "|" Sample.LINE) with false in Hp.
      cbn [andb] in Hp.
      rewrite try_numbered_format_LINE in Hp.
      cbn [RubricParser.orelse bind] in Hp.
      destruct (RubricParser._parse_lines_from (S line_num) lines);
        cbn [bind] in Hp; [| discriminate].
      injection Hp as <-. left. reflexivity.
    + cbn [RubricParser._parse_lines_from] in Hp.
      destruct (_ || _ || _).
      { eapply IH; eauto. }
      destruct (_ && _).
      { eapply IH; eauto. }
      destruct (RubricParser.orelse _ _) as [criterion |];
        cbn [bind] in Hp; [| discriminate].
      destruct (RubricParser._parse_lines_from (S line_num) lines) as [cs |] eqn:E;
        cbn [bind] in Hp; [| discriminate].
      assert (In Sample.Clarity cs) by (eapply IH; eauto).
      destruct criterion; injection Hp as <-; [right |]; assumption.
Qed.

(** C10. The line "1. Clarity (25 points): Ideas are expressed clearly"
    parses, by the numbered format, to the criterion named "Clarity" with
    [max_points] 25 and the description "Ideas are expressed clearly";
    every rubric that [parse] returns for a content with this line has
    that criterion, and for the content that is this line alone [parse]
    returns the rubric made of it. *)
Theorem numbered_line_parses_to_Clarity :
  RubricCriterion.name Sample.Clarity = "Clarity"
  /\ (RubricCriterion.max_points Sample.Clarity == 25)%Q
  /\ RubricCriterion.description Sample.Clarity = "Ideas are expressed clearly"
  /\ (forall line_num,
         RubricParser._try_numbered_format Sample.LINE line_num
         = Ok (Some Sample.Clarity))
  /\ (forall content title rubric line,
         RubricParser.parse content title = Ok rubric ->
         In line (split RubricParser.newline (strip content)) ->
         strip line = Sample.LINE ->
         In Sample.Clarity (Rubric.criteria rubric))
  /\ RubricParser.parse Sample.LINE "Grading Rubric"
     = Ok (Rubric.mk "Grading Rubric" "" [Sample.Clarity]).
Proof.
  split; [reflexivity |]. split; [reflexivity |]. split; [reflexivity |].
  split; [exact try_numbered_format_LINE |].
  split; [| reflexivity].
  intros content title rubric line Hp Hin Hs.
  unfold RubricParser.parse in Hp.
  destruct (_ && _); [| discriminate].
  unfold RubricParser._parse_lines in Hp.
  destruct (RubricParser._parse_lines_from 1 _) as [cs |] eqn:E;
    cbn [bind] in Hp; [| discriminate].
  assert (Hc : In Sample.Clarity cs)
    by (eapply parse_lines_from_keeps_LINE; eauto).
  destruct cs as [| c0 cs']; [discriminate |].
  unfold Rubric.new in Hp.
  destruct (_ && _); [| discriminate].
  destruct (1 <=? _); [| discriminate].
  destruct (negb _); [| discriminate].
  injection Hp as <-. exact Hc.
Qed.

Lemma numbered_line_parses_to_Clarity_witness :
  let content :=
    ("Essay Rubric" ++ String RubricParser.newline Sample.LINE)%string in
  RubricParser.parse content "Grading Rubric"
  = Ok (Rubric.mk "Essay Rubric" "" [Sample.Clarity])
  /\ In Sample.Clarity [Sample.Clarity].
Proof.
  intros content. split; [reflexivity |].
  destruct numbered_line_parses_to_Clarity as (_ & _ & _ & _ & H & _).
  apply (H content "Grading Rubric"
           (Rubric.mk "Essay Rubric" "" [Sample.Clarity]) Sample.LINE).
  - reflexivity.
  - right. left. reflexivity.
  - reflexivity.
Defined.

(* ================================================================== *)
(** * sorted, median and the element with the least key *)
(* ================================================================== *)

Lemma insert_sorted_length (x : Q) (l : list Q) :
  List.length (insert_sorted x l) = S (List.length l).
Proof.
  induction l as [| y l IH]; simpl; [reflexivity |].
  destruct (Qle_bool x y); simpl; congruence.
Qed.

Lemma sorted_length (l : list Q) : List.length (sorted l) = List.length l.
Proof.
  induction l as [| x l IH]; simpl; [reflexivity |].
  unfold sorted in *. simpl. rewrite insert_sorted_length. congruence.
Qed.

Lemma insert_sorted_perm (x : Q) (l : list Q) :
  Permutation (insert_sorted x l) (x :: l).
Proof.
  induction l as [| y l IH]; simpl; [apply Permutation_refl |].
  destruct (Qle_bool x y); [apply Permutation_refl |].
  eapply perm_trans; [apply perm_skip, IH | apply perm_swap].
Qed.

Lemma sorted_perm (l : list Q) : Permutation (sorted l) l.
Proof.
  induction l as [| x l IH]; simpl; [constructor |].
  unfold sorted in *. simpl.
  eapply perm_trans; [apply insert_sorted_perm | apply perm_skip, IH].
Qed.

Lemma insert_sorted_ascending (x : Q) (l : list Q) :
  ascending l -> ascending (insert_sorted x l).
Proof.
  induction l as [| y l IH]; simpl; intros H.
  - split; [constructor | exact I].
  - destruct H as [Hy Hl]. destruct (Qle_bool x y) eqn:E.
    + apply Qle_bool_iff in E. simpl. split; [| split; assumption].
      constructor; [exact E |].
      eapply Forall_impl; [| exact Hy]. simpl. intros z Hz. lra.
    + assert (Hyx : (y <= x)%Q).
      { destruct (Qlt_le_dec x y) as [Hlt | Hle]; [| exact Hle].
        apply Qlt_le_weak, Qle_bool_iff in Hlt. congruence. }
      simpl. split; [| apply IH, Hl].
      apply (Permutation_Forall (Permutation_sym (insert_sorted_perm x l))).
      constructor; assumption.
Qed.

Lemma sorted_ascending (l : list Q) : ascending (sorted l).
Proof.
  induction l as [| x l IH]; simpl; [exact I |].
  unfold sorted in *. simpl. apply insert_sorted_ascending, IH.
Qed.

Lemma median_defined (data : list Q) :
  data <> [] -> exists m, median data = Ok m.
Proof.
  intros Hne. unfold median. rewrite sorted_length.
  destruct data as [| x data]; [congruence |]. simpl List.length.
  cbn [Nat.eqb]. destruct (_ =? 1); eauto.
Qed.

Lemma first_least_snoc {A : Type} (key : A -> Q) (l : list A) (i : nat) (m y : A) :
  first_least key l i m ->
  exists i',
    first_least key (l ++ [y]) i' (if Qlt_bool (key y) (key m) then y else m).
Proof.
  intros [Hi Hmin].
  assert (Hlen : i < List.length l) by (apply nth_error_Some; congruence).
  destruct (Qlt_bool (key y) (key m)) eqn:E.
  - apply Qlt_bool_iff in E. exists (List.length l). split.
    + rewrite nth_error_app2, Nat.sub_diag by lia. reflexivity.
    + intros j z Hj.
      destruct (Nat.lt_ge_cases j (List.length l)) as [Hlt | Hge].
      * rewrite nth_error_app1 in Hj by assumption.
        destruct (Hmin j z Hj) as [Hle _]. split; intros; lra.
      * rewrite nth_error_app2 in Hj by assumption.
        destruct (j - List.length l) as [| k] eqn:Ek; simpl in Hj.
        -- injection Hj as <-. split; [lra | lia].
        -- destruct k; discriminate.
  - apply Qlt_bool_false_iff in E. exists i. split.
    + rewrite nth_error_app1 by assumption. exact Hi.
    + intros j z Hj.
      destruct (Nat.lt_ge_cases j (List.length l)) as [Hlt | Hge].
      * rewrite nth_error_app1 in Hj by assumption. apply Hmin, Hj.
      * rewrite nth_error_app2 in Hj by assumption.
        destruct (j - List.length l) as [| k] eqn:Ek; simpl in Hj.
        -- injection Hj as <-. split; [exact E | lia].
        -- destruct k; discriminate.
Qed.

Lemma first_least_fold {A : Type} (key : A -> Q) (xs : list A) :
  forall l i m,
    first_least key l i m ->
    exists i',
      first_least key (l ++ xs) i'
        (fold_left (fun best y => if Qlt_bool (key y) (key best) then y else best)
                   xs m).
Proof.
  induction xs as [| x xs IH]; intros l i m H; simpl.
  - rewrite app_nil_r. eauto.
  - destruct (first_least_snoc key l i m x H) as [i' H'].
    destruct (IH _ _ _ H') as [i'' H''].
    rewrite <- app_assoc in H''. eauto.
Qed.

(** [min(x :: xs, key=key)] is the first element with the least key. *)
Lemma min_by_first_least {A : Type} (key : A -> Q) (x : A) (xs : list A) :
  exists i, first_least key (x :: xs) i (min_by key x xs).
Proof.
  unfold min_by. apply (first_least_fold key xs [x] 0).
  split; [reflexivity |].
  intros j y Hj. destruct j as [| [| j]]; simpl in Hj; try discriminate.
  injection Hj as <-. split; [lra | lia].
Qed.

(* ================================================================== *)
(** * Facts about dictionaries and the lookup of a rubric *)
(* ================================================================== *)

Lemma nonempty_length (s : string) :
  nonempty s = true -> (1 <=? String.length s) = true.
Proof. destruct s; [discriminate | reflexivity]. Qed.

Section DictFacts.
Variable V : Type.
Implicit Types (d : Dict.t V) (k : string) (v : V).

Lemma Dict_get_In k v d : Dict.get k d = Some v -> In (k, v) d.
Proof.
  induction d as [| [k' v'] d IH]; simpl; [discriminate |].
  destruct (String.eqb_spec k k') as [-> | Hne].
  - intros H. injection H as ->. left. reflexivity.
  - intros H. right. apply IH, H.
Qed.


Lemma Dict_In_get k v d :
  NoDup (Dict.keys d) -> In (k, v) d -> Dict.get k d = Some v.
Proof.
  induction d as [| [k' v'] d IH]; simpl; intros Hnd Hin; [destruct Hin |].
  inversion Hnd as [| ? ? Hnotin Hnd']; subst.
  destruct Hin as [Heq | Hin].
  - injection Heq as -> ->. rewrite String.eqb_refl. reflexivity.
  - destruct (String.eqb_spec k k') as [-> | Hne].
    + exfalso. apply Hnotin. apply (in_map fst) in Hin. exact Hin.
    + apply IH; assumption.
Qed.

Lemma Dict_set_In k v d k' v' :
  In (k', v') (Dict.set k v d) -> (k', v') = (k, v) \/ In (k', v') d.
Proof.
  induction d as [| [k0 v0] d IH]; simpl.
  - intros [H | []]. left. symmetry. exact H.
  - destruct (String.eqb_spec k k0) as [-> | Hne]; simpl.
    + intros [H | H]; [left; symmetry; exact H | right; right; exact H].
    + intros [H | H]; [right; left; exact H |].
      destruct (IH H) as [H' | H']; [left | right; right]; exact H'.
Qed.

Lemma Dict_set_keys k v d :
  Dict.keys (Dict.set k v d)
  = if mem k (Dict.keys d) then Dict.keys d else Dict.keys d ++ [k].
Proof.
  induction d as [| [k0 v0] d IH]; simpl; [reflexivity |].
  unfold mem in *. simpl.
  destruct (String.eqb_spec k k0) as [-> | Hne]; simpl; [reflexivity |].
  rewrite IH. destruct (existsb _ _); reflexivity.
Qed.

Lemma Dict_set_fresh k v d :
  ~ In k (Dict.keys d) -> Dict.set k v d = d ++ [(k, v)].
Proof.
  induction d as [| [k0 v0] d IH]; simpl; intros Hnotin; [reflexivity |].
  destruct (String.eqb_spec k k0) as [-> | Hne].
  - exfalso. apply Hnotin. left. reflexivity.
  - f_equal. apply IH. intros Hin. apply Hnotin. right. exact Hin.
Qed.

End DictFacts.

(** The key of a rubric criterion in the lookup. *)
Abbreviation key_of c := (lower (RubricCriterion.name c)).

Abbreviation lookup_step :=
  (fun (d : Dict.t RubricCriterion.t) (c : RubricCriterion.t) =>
     Dict.set (lower (RubricCriterion.name c)) c d).

Lemma lookup_fold_entries (cs : list RubricCriterion.t) :
  forall d k c,
    In (k, c) (fold_left lookup_step cs d) ->
    In (k, c) d \/ (In c cs /\ k = key_of c).
Proof.
  induction cs as [| c0 cs IH]; intros d k c H; simpl in H; [left; exact H |].
  destruct (IH _ _ _ H) as [H' | [H' ->]].
  - apply Dict_set_In in H'. destruct H' as [Heq | H'].
    + injection Heq as -> ->. right. split; [left |]; reflexivity.
    + left. exact H'.
  - right. split; [right; exact H' | reflexivity].
Qed.


Lemma lookup_fold_NoDup (cs : list RubricCriterion.t) :
  forall d, NoDup (Dict.keys d) -> NoDup (Dict.keys (fold_left lookup_step cs d)).
Proof.
  induction cs as [| c0 cs IH]; intros d Hnd; simpl; [exact Hnd |].
  apply IH. rewrite Dict_set_keys.
  destruct (mem (key_of c0) (Dict.keys d)) eqn:E; [exact Hnd |].
  apply mem_false_iff in E.
  apply NoDup_app; [exact Hnd | constructor; [intros [] | constructor] |].
  intros x Hx [<- | []]. exact (E Hx).
Qed.

Lemma lookup_fold_distinct (cs : list RubricCriterion.t) :
  forall d,
    NoDup (Dict.keys d ++ map (fun c => key_of c) cs) ->
    fold_left lookup_step cs d = d ++ map (fun c => (key_of c, c)) cs.
Proof.
  induction cs as [| c0 cs IH]; intros d Hnd; simpl.
  - rewrite app_nil_r. reflexivity.
  - simpl in Hnd.
    assert (Hfresh : ~ In (key_of c0) (Dict.keys d)).
    { intros Hin. apply NoDup_remove_2 in Hnd. apply Hnd.
      apply in_or_app. left. exact Hin. }
    rewrite Dict_set_fresh by exact Hfresh.
    rewrite IH.
    + rewrite <- app_assoc. reflexivity.
    + unfold Dict.keys in *. rewrite map_app, <- app_assoc. simpl.
      exact Hnd.
Qed.

(** The lookup of a rubric: its keys are distinct and are the lowered
    names of the criteria; each entry holds a criterion of the rubric
    under its own lowered name. *)
Lemma rubric_lookup_NoDup (rubric : Rubric.t) :
  NoDup (Dict.keys (ResponseParser.rubric_lookup rubric)).
Proof. apply lookup_fold_NoDup. constructor. Qed.


Lemma rubric_lookup_entries (rubric : Rubric.t) (k : string)
      (c : RubricCriterion.t) :
  In (k, c) (ResponseParser.rubric_lookup rubric) ->
  In c (Rubric.criteria rubric) /\ k = key_of c.
Proof.
  intros H. apply lookup_fold_entries in H. destruct H as [[] | H]. exact H.
Qed.

Lemma rubric_lookup_distinct (rubric : Rubric.t) :
  NoDup (map (fun c => key_of c) (Rubric.criteria rubric)) ->
  ResponseParser.rubric_lookup rubric
  = map (fun c => (key_of c, c)) (Rubric.criteria rubric).
Proof.
  intros H. unfold ResponseParser.rubric_lookup.
  rewrite lookup_fold_distinct; [reflexivity | exact H].
Qed.

(* ================================================================== *)
(** * The loop over the reported criteria *)
(* ================================================================== *)

Section ScorerFacts.
Context {py : PythonRuntime}.



(** After the guards of the loop the constructor of [CriterionResult]
    accepts its arguments. *)
Lemma CriterionResult_new_after_guards n m a j d :
  negb (Qlt_bool a 0) = true ->
  negb (Qlt_bool m a) = true ->
  nonempty j = true ->
  CriterionResult.new n m a j d = Ok (CriterionResult.mk n m a j d)
  /\ CriterionResult.valid (CriterionResult.mk n m a j d) = true.
Proof.
  intros H0 H1 Hj.
  assert (Hv : CriterionResult.valid (CriterionResult.mk n m a j d) = true).
  { unfold CriterionResult.valid.
    cbn [CriterionResult.awarded_points CriterionResult.justification
         CriterionResult.max_points].
    unfold Qlt_bool in H0. rewrite negb_involutive in H0.
    rewrite H0, H1, (nonempty_length j Hj). reflexivity. }
  unfold CriterionResult.new. rewrite Hv. split; reflexivity.
Qed.

(** What one successful turn of the loop does. *)
Lemma process_item_Ok lookup i item results seen results' seen' :
  ResponseParser.process_item lookup i item (results, seen) = Ok (results', seen') ->
  exists r k,
    graded_as lookup item r
    /\ resolved_key lookup item = Some k
    /\ k = lower (CriterionResult.criterion_name r)
    /\ ~ In k seen
    /\ seen' = seen ++ [k]
    /\ results' = results ++ [r].
Proof.
  unfold ResponseParser.process_item.
  destruct item as [| | | | | it]; try discriminate.
  fold (reported_name it).
  destruct (nonempty (reported_name it)); [| discriminate].
  destruct (ResponseParser.resolve lookup (reported_name it)) as [c |] eqn:Hres;
    [| discriminate].
  destruct (negb (mem (key_of c) seen)) eqn:Hseen; [| discriminate].
  destruct (ResponseParser._parse_decimal _ _) as [a |]; cbn [bind];
    [| discriminate].
  destruct (negb (Qlt_bool a 0)) eqn:H0; [| discriminate].
  destruct (negb (Qlt_bool (RubricCriterion.max_points c) a)) eqn:H1;
    [| discriminate].
  destruct (nonempty _) eqn:Hj; [| discriminate].
  destruct (CriterionResult_new_after_guards (RubricCriterion.name c)
              (RubricCriterion.max_points c) a _
              (ResponseParser.deduction_reason_of it) H0 H1 Hj) as [Hnew Hvalid].
  rewrite Hnew. cbn [bind]. intros H. injection H as <- <-.
  exists (CriterionResult.mk (RubricCriterion.name c)
            (RubricCriterion.max_points c) a
            (ResponseParser.str
               (ResponseParser.get_default "justification" (JStr "") it))
            (ResponseParser.deduction_reason_of it)).
  exists (key_of c).
  split; [exists it, c; repeat split; try reflexivity; assumption |].
  split; [simpl; fold (reported_name it); rewrite Hres; reflexivity |].
  split; [reflexivity |].
  split; [| split; reflexivity].
  apply negb_true_iff, mem_false_iff in Hseen. exact Hseen.
Qed.



(** What a successful run of the loop does: every entry resolves to a
    criterion not seen before, and gives one result. *)
Lemma process_items_Ok lookup items :
  forall i results seen results' seen',
    ResponseParser.process_items lookup i items (results, seen)
    = Ok (results', seen') ->
    exists rs,
      results' = results ++ rs
      /\ seen' = seen ++ resolved_keys lookup items
      /\ Forall2 (graded_as lookup) items rs
      /\ resolved_keys lookup items
         = map (fun r => lower (CriterionResult.criterion_name r)) rs
      /\ (NoDup seen -> NoDup seen').
Proof.
  induction items as [| item items IH]; intros i results seen results' seen' H;
    cbn [ResponseParser.process_items] in H.
  - injection H as <- <-. exists []. rewrite !app_nil_r.
    repeat split; auto.
  - destruct (ResponseParser.process_item lookup i item (results, seen))
      as [[results1 seen1] |] eqn:E; cbn [bind] in H; [| discriminate].
    apply process_item_Ok in E.
    destruct E as (r & k & Hg & Hk & Hkr & Hfresh & -> & ->).
    destruct (IH _ _ _ _ _ H) as (rs & -> & -> & Hall & Hkeys & Hnd).
    exists (r :: rs). unfold resolved_keys in *. simpl. rewrite Hk. simpl.
    rewrite <- !app_assoc. simpl.
    split; [reflexivity |]. split; [reflexivity |].
    split; [constructor; assumption |].
    split; [rewrite Hkeys, Hkr; reflexivity |].
    intros Hseen.
    change (seen ++ k :: ?l) with (seen ++ [k] ++ l).
    rewrite app_assoc. apply Hnd.
    apply NoDup_app; [exact Hseen | constructor; [intros [] | constructor] |].
    intros x Hx [<- | []]. exact (Hfresh Hx).
Qed.


Lemma missing_keys_nil lookup seen :
  ResponseParser.missing_keys lookup seen = []
  <-> forall k, In k (Dict.keys lookup) -> In k seen.
Proof.
  unfold ResponseParser.missing_keys. split.
  - intros H k Hk. destruct (mem k seen) eqn:E; [apply mem_iff, E |].
    assert (Hin : In k (filter (fun k => negb (mem k seen)) (Dict.keys lookup))).
    { apply filter_In. rewrite E. auto. }
    rewrite H in Hin. destruct Hin.
  - intros H. induction (Dict.keys lookup) as [| k ks IH]; simpl; [reflexivity |].
    assert (Hk : mem k seen = true) by (apply mem_iff, H; left; reflexivity).
    rewrite Hk. simpl. apply IH. intros k' Hk'. apply H. right. exact Hk'.
Qed.

(** What [_parse_criteria_results] has done when it returns. *)
Lemma parse_criteria_results_Ok results_data rubric results :
  ResponseParser._parse_criteria_results results_data rubric = Ok results ->
  let lookup := ResponseParser.rubric_lookup rubric in
  exists items,
    results_data = JList items
    /\ Forall2 (graded_as lookup) items results
    /\ resolved_keys lookup items
       = map (fun r => lower (CriterionResult.criterion_name r)) results
    /\ NoDup (resolved_keys lookup items)
    /\ (forall k, In k (Dict.keys lookup) -> In k (resolved_keys lookup items)).
Proof.
  intros H lookup. unfold ResponseParser._parse_criteria_results in H.
  destruct results_data as [| | | | items |]; try discriminate.
  fold lookup in H.
  destruct (ResponseParser.process_items lookup 0 items ([], []))
    as [[rs seen] |] eqn:E; cbn [bind] in H; [| discriminate].
  destruct (ResponseParser.missing_keys lookup seen) eqn:Hm; [| discriminate].
  injection H as <-.
  apply process_items_Ok in E. destruct E as (rs' & -> & -> & Hall & Hkeys & Hnd).
  simpl in *. exists items. repeat split; auto.
  - apply Hnd. constructor.
  - apply missing_keys_nil, Hm.
Qed.


End ScorerFacts.

(* ================================================================== *)
(** * The conversion of a decoded response *)
(* ================================================================== *)

Section ConversionFacts.
Context {py : PythonRuntime}.

(** With its four fields present, the conversion of an object comes to
    the checks that follow the test of the fields. *)
Lemma validate_and_convert_fields d rubric id graded rd ts mp fb :
  Dict.get "criteria_results" d = Some rd ->
  Dict.get "total_score" d = Some ts ->
  Dict.get "max_possible" d = Some mp ->
  Dict.get "overall_feedback" d = Some fb ->
  ResponseParser._validate_and_convert (JDict d) rubric id graded
  = (criteria_results <- ResponseParser._parse_criteria_results rd rubric ;;
     reported_total <- ResponseParser._parse_decimal ts "total_score" ;;
     reported_max <- ResponseParser._parse_decimal mp "max_possible" ;;
     unless Qeq_bool reported_max (Rubric.total_max_points rubric)
       raise ScoringError
               (MaxPossibleMismatch reported_max (Rubric.total_max_points rubric)) ;;
     GradingResult.new id (Rubric.title rubric) criteria_results
       (ResponseParser.str fb) graded 1 false false).
Proof.
  intros Hrd Hts Hmp Hfb.
  unfold ResponseParser._validate_and_convert, ResponseParser.check_required,
    ResponseParser.required_fields, ResponseParser.field_in,
    ResponseParser.subscript.
  rewrite Hrd, Hts, Hmp, Hfb. cbn [bind].
  destruct (ResponseParser._parse_criteria_results rd rubric); cbn [bind];
    [| reflexivity].
  destruct (ResponseParser._parse_decimal ts "total_score"); cbn [bind];
    [| reflexivity].
  destruct (ResponseParser._parse_decimal mp "max_possible"); cbn [bind];
    [| reflexivity].
  destruct (Qeq_bool _ _); reflexivity.
Qed.




End ConversionFacts.

(* ================================================================== *)
(** * The totals of a response *)
(* ================================================================== *)

Section TotalsFacts.
Context {py : PythonRuntime}.




End TotalsFacts.



(* ================================================================== *)
(** * Coverage of the rubric by the reported criteria *)
(* ================================================================== *)

Section CoverageFacts.
Context {py : PythonRuntime}.




End CoverageFacts.


(* ================================================================== *)
(** * The maximum points of a parsed result *)
(* ================================================================== *)


Lemma Forall2_In_r {A B : Type} (R : A -> B -> Prop) (l : list A) (l' : list B) :
  Forall2 R l l' -> forall y, In y l' -> exists x, In x l /\ R x y.
Proof.
  induction 1 as [| x y0 l l' Hxy _ IH]; intros y Hy; [destruct Hy |].
  destruct Hy as [<- | Hy].
  - exists x. split; [left; reflexivity | exact Hxy].
  - destruct (IH y Hy) as (x' & Hx' & HR). exists x'. split; [right |]; assumption.
Qed.

Section MaxPointsFacts.
Context {py : PythonRuntime}.



End MaxPointsFacts.

(** C7. Each criterion result is to carry the [max_points] of the rubric
    criterion it matched, so that [total_max] is the rubric's
    [total_max_points].  For the rubric that [Rubric.new] returns for the
    criteria "Content" (10 points) and "content" (20 points), the
    response with the one entry "content", whose [max_possible] is the
    rubric's total 30, is accepted: the lookup keeps the one key
    "content", the result has the one criterion result worth 20 points,
    and its [total_max] is 20, not 30. *)
Theorem total_max_differs_for_case_variants :
  Rubric.new "Essay Rubric" "" [Sample.Content; Sample.content]
  = Ok Sample.case_rubric
  /\ (Rubric.total_max_points Sample.case_rubric == 30)%Q
  /\ @ResponseParser._validate_and_convert Sample.runtime
       (Sample.payload 15 30 [Sample.entry "content" 15]) Sample.case_rubric 1 2
     = Ok (GradingResult.mk 1 "Essay Rubric"
             [CriterionResult.mk "content" 20 15
                "The answer says so in its first line." None]
             "A sound answer." 2 1 false false)
  /\ (GradingResult.total_max
        (GradingResult.mk 1 "Essay Rubric"
           [CriterionResult.mk "content" 20 15
              "The answer says so in its first line." None]
           "A sound answer." 2 1 false false) == 20)%Q
  /\ @ResponseParser._validate_and_convert Sample.runtime
       (Sample.payload 20 30
          [Sample.entry "Content" 5; Sample.entry "content" 15])
       Sample.case_rubric 1 2
     = Raise (ScoringError (DuplicateCriterion "content")).
Proof. repeat split; reflexivity. Qed.

(* ================================================================== *)
(** * The flags of the final result *)
(* ================================================================== *)

Lemma sum_positive (l : list Q) :
  l <> [] -> Forall (fun x => 0 < x)%Q l -> (0 < sum l)%Q.
Proof.
  intros Hne Hall. destruct l as [| x l]; [congruence |].
  inversion Hall as [| ? ? Hx Hl]; subst.
  rewrite sum_cons.
  assert (0 <= sum l)%Q; [| lra].
  clear Hne Hall Hx. induction Hl as [| y l Hy _ IH].
  - rewrite sum_nil. lra.
  - rewrite sum_cons. lra.
Qed.

Lemma RubricCriterion_valid_positive (c : RubricCriterion.t) :
  RubricCriterion.valid c = true -> (0 < RubricCriterion.max_points c)%Q.
Proof.
  unfold RubricCriterion.valid. rewrite !andb_true_iff.
  intros [[_ H] _]. apply Qlt_bool_iff, H.
Qed.

Section EngineFacts.
Context {py : PythonRuntime}.
Variable settings : GradingEngine.Settings.
Variable generate : nat -> result string.
Variables uuid4 utcnow : nat -> N.





End EngineFacts.


(* ================================================================== *)
(** * The selection among the passes *)
(* ================================================================== *)



(* ================================================================== *)
(** * What the rubric parser returns and what it raises *)
(* ================================================================== *)

Lemma RubricCriterion_new_valid name description points c :
  RubricCriterion.new name description points = Ok c ->
  RubricCriterion.valid c = true.
Proof.
  unfold RubricCriterion.new.
  destruct (RubricCriterion.valid _) eqn:E; [| discriminate].
  intros H. injection H as <-. exact E.
Qed.

Lemma parse_points_cases points_str line_num :
  (exists p, RubricParser._parse_points points_str line_num = Ok p /\ (0 < p)%Q)
  \/ (exists msg, RubricParser._parse_points points_str line_num
                  = Raise (RubricParseError msg (Some line_num))).
Proof.
  unfold RubricParser._parse_points.
  destruct (RubricParser.Decimal_of_numeral _) as [p |]; [| right; eauto].
  destruct (negb (Qle_bool p 0)) eqn:E; [| right; eauto].
  left. exists p. split; [reflexivity |].
  apply (Qlt_bool_iff 0 p). exact E.
Qed.

(** A strategy that reads the points, then builds the criterion. *)
Lemma criterion_of_match_cases points_str line_num name description :
  let r := (points <- RubricParser._parse_points points_str line_num ;;
            c <- RubricCriterion.new name description points ;;
            Ok (Some c)) in
  (exists c, r = Ok (Some c) /\ RubricCriterion.valid c = true)
  \/ (exists e, r = Raise e /\ line_error line_num e).
Proof.
  cbv zeta.
  destruct (parse_points_cases points_str line_num) as [(p & -> & _) | (msg & ->)];
    cbn [bind].
  - destruct (RubricCriterion.new name description p) as [c | e] eqn:E;
      cbn [bind].
    + left. exists c. split; [reflexivity |].
      eapply RubricCriterion_new_valid, E.
    + right. exists e. split; [reflexivity |]. right.
      unfold RubricCriterion.new in E.
      destruct (RubricCriterion.valid _); [discriminate |].
      injection E as <-. eauto.
  - right. eexists. split; [reflexivity |]. left. eauto.
Qed.

Lemma try_numbered_format_outcome line line_num :
  strategy_outcome line_num (RubricParser._try_numbered_format line line_num).
Proof.
  unfold RubricParser._try_numbered_format.
  destruct (Re.match_ true RubricParser.NUMBERED_PATTERN line) as [m |];
    [| left; reflexivity].
  right. apply criterion_of_match_cases.
Qed.

Lemma try_simple_format_outcome line line_num :
  strategy_outcome line_num (RubricParser._try_simple_format line line_num).
Proof.
  unfold RubricParser._try_simple_format.
  destruct (Re.match_ true RubricParser.SIMPLE_PATTERN line) as [m |];
    [| left; reflexivity].
  right. apply criterion_of_match_cases.
Qed.

Lemma try_colon_format_outcome line line_num :
  strategy_outcome line_num (RubricParser._try_colon_format line line_num).
Proof.
  unfold RubricParser._try_colon_format.
  destruct (Re.match_ true RubricParser.COLON_PATTERN line) as [m |];
    [| left; reflexivity].
  right. apply criterion_of_match_cases.
Qed.

Lemma table_cells_outcome cells line_num rest :
  forall i, strategy_outcome line_num (RubricParser._table_cells cells line_num i rest).
Proof.
  induction rest as [| cell rest IH]; intros i; cbn [RubricParser._table_cells].
  - left. reflexivity.
  - destruct (Re.search false _ cell) as [m |]; [| apply IH].
    destruct (parse_points_cases (Re.group 1 m) line_num)
      as [(p & Hp & _) | (msg & Hp)]; rewrite Hp; cbn [bind].
    + destruct (_ && _); [| apply IH].
      right.
      destruct (RubricCriterion.new _ _ p) as [c | e] eqn:E; cbn [bind].
      * left. exists c. split; [reflexivity |].
        eapply RubricCriterion_new_valid, E.
      * right. exists e. split; [reflexivity |]. right.
        unfold RubricCriterion.new in E.
        destruct (RubricCriterion.valid _); [discriminate |].
        injection E as <-. eauto.
    + right. right. eexists. split; [reflexivity |]. left. eauto.
Qed.

Lemma try_table_format_outcome line line_num :
  strategy_outcome line_num (RubricParser._try_table_format line line_num).
Proof.
  unfold RubricParser._try_table_format.
  destruct (negb _); [left; reflexivity |].
  destruct (_ <? 2); [left; reflexivity |].
  apply table_cells_outcome.
Qed.

Lemma orelse_outcome line_num a b :
  strategy_outcome line_num a ->
  strategy_outcome line_num (b tt) ->
  strategy_outcome line_num (RubricParser.orelse a b).
Proof.
  intros [-> | [(c & -> & Hc) | (e & -> & He)]] Hb;
    unfold RubricParser.orelse; cbn [bind].
  - exact Hb.
  - right. left. eauto.
  - right. right. eauto.
Qed.

Lemma line_strategies_outcome stripped line_num :
  strategy_outcome line_num
    (RubricParser.orelse (RubricParser._try_numbered_format stripped line_num)
       (fun _ =>
        RubricParser.orelse (RubricParser._try_simple_format stripped line_num)
          (fun _ =>
           RubricParser.orelse (RubricParser._try_colon_format stripped line_num)
             (fun _ => RubricParser._try_table_format stripped line_num)))).
Proof.
  repeat apply orelse_outcome.
  - apply try_numbered_format_outcome.
  - apply try_simple_format_outcome.
  - apply try_colon_format_outcome.
  - apply try_table_format_outcome.
Qed.

Lemma parse_lines_from_outcome lines :
  forall line_num,
    match RubricParser._parse_lines_from line_num lines with
    | Ok criteria => Forall (fun c => RubricCriterion.valid c = true) criteria
    | Raise e =>
        (exists msg k, e = RubricParseError msg (Some k)
                       /\ line_num <= k < line_num + List.length lines)
        \/ (exists msg, e = ValidationError msg)
    end.
Proof.
  induction lines as [| line lines IH]; intros line_num;
    cbn [RubricParser._parse_lines_from].
  - constructor.
  - assert (Hrest :
      match RubricParser._parse_lines_from (S line_num) lines with
      | Ok criteria => Forall (fun c => RubricCriterion.valid c = true) criteria
      | Raise e =>
          (exists msg k, e = RubricParseError msg (Some k)
                         /\ line_num <= k < line_num + List.length (line :: lines))
          \/ (exists msg, e = ValidationError msg)
      end).
    { specialize (IH (S line_num)).
      destruct (RubricParser._parse_lines_from (S line_num) lines);
        [exact IH |].
      destruct IH as [(msg & k & -> & Hk) | H]; [left | right; exact H].
      exists msg, k. split; [reflexivity |]. simpl. lia. }
    destruct (_ || _ || _); [exact Hrest |].
    destruct (_ && _); [exact Hrest |].
    destruct (line_strategies_outcome (strip line) line_num)
      as [-> | [(c & -> & Hc) | (e & -> & He)]]; cbn [bind].
    + destruct (RubricParser._parse_lines_from (S line_num) lines);
        cbn [bind]; exact Hrest.
    + destruct (RubricParser._parse_lines_from (S line_num) lines);
        cbn [bind]; [constructor; assumption | exact Hrest].
    + destruct He as [(msg & ->) | (msg & ->)]; [left | right; eauto].
      exists msg, line_num. split; [reflexivity |]. simpl. lia.
Qed.

Lemma parse_Ok_facts (content title : string) (rubric : Rubric.t) :
  RubricParser.parse content title = Ok rubric ->
  Rubric.criteria rubric <> []
  /\ Forall (fun c => RubricCriterion.valid c = true) (Rubric.criteria rubric)
  /\ NoDup (map RubricCriterion.name (Rubric.criteria rubric))
  /\ 1 <= String.length (Rubric.title rubric) <= 500
  /\ (0 < Rubric.total_max_points rubric)%Q.
Proof.
  intros H. unfold RubricParser.parse in H.
  destruct (_ && _); [| discriminate].
  unfold RubricParser._parse_lines in H.
  pose proof (parse_lines_from_outcome
                (split RubricParser.newline (strip content)) 1) as Hvalid.
  destruct (RubricParser._parse_lines_from 1 _) as [cs |];
    cbn [bind] in H; [| discriminate].
  destruct cs as [| c cs]; [discriminate |].
  unfold Rubric.new in H.
  destruct (1 <=? String.length _) eqn:Ht1; [| discriminate].
  destruct (String.length _ <=? 500) eqn:Ht2; [| discriminate].
  cbn [andb List.length Nat.leb] in H.
  destruct (negb _) eqn:Hd; [| discriminate].
  injection H as <-. cbn [Rubric.criteria Rubric.title].
  apply Nat.leb_le in Ht1. apply Nat.leb_le in Ht2.
  apply negb_true_iff, has_duplicate_names_iff in Hd.
  split; [discriminate |]. split; [exact Hvalid |]. split; [exact Hd |].
  split; [lia |].
  unfold Rubric.total_max_points. cbn [Rubric.criteria].
  apply sum_positive; [discriminate |].
  apply Forall_map. eapply Forall_impl; [| exact Hvalid].
  intros c0. apply RubricCriterion_valid_positive.
Qed.

(** X1. A rubric that [parse] returns satisfies the constraints of the
    models: it has a criterion, every criterion has a name of 1 to 200
    characters, a description and points in (0, 1000], no two criteria
    have the same name as written, the title has 1 to 500 characters,
    and the total is positive. *)
Theorem parse_returns_valid_rubric (content title : string) (rubric : Rubric.t) :
  RubricParser.parse content title = Ok rubric ->
  Rubric.criteria rubric <> []
  /\ Forall (fun c => RubricCriterion.valid c = true) (Rubric.criteria rubric)
  /\ NoDup (map RubricCriterion.name (Rubric.criteria rubric))
  /\ 1 <= String.length (Rubric.title rubric) <= 500
  /\ (0 < Rubric.total_max_points rubric)%Q.
Proof. apply parse_Ok_facts. Qed.

Lemma parse_returns_valid_rubric_witness :
  Rubric.criteria (Rubric.mk "Essay Rubric" "" [Sample.Clarity]) <> []
  /\ (0 < Rubric.total_max_points (Rubric.mk "Essay Rubric" "" [Sample.Clarity]))%Q.
Proof.
  destruct (parse_returns_valid_rubric
              ("Essay Rubric" ++ String RubricParser.newline Sample.LINE)%string
              "Grading Rubric" (Rubric.mk "Essay Rubric" "" [Sample.Clarity])
              eq_refl) as (H1 & _ & _ & _ & H2).
  split; assumption.
Defined.

(** X2. Blank content is rejected as empty, and a line number that a
    [RubricParseError] of [parse] carries is the number of a line of the
    content, counted from 1. *)
Theorem parse_error_names_a_line (content title : string) :
  (strip content = EmptyString ->
   RubricParser.parse content title
   = Raise (RubricParseError "Rubric content is empty" None))
  /\ (forall msg k,
         RubricParser.parse content title = Raise (RubricParseError msg (Some k)) ->
         1 <= k <= List.length (split RubricParser.newline (strip content))).
Proof.
  split.
  - intros Hs. unfold RubricParser.parse. rewrite Hs.
    cbn. rewrite andb_false_r. reflexivity.
  - intros msg k H. unfold RubricParser.parse in H.
    destruct (_ && _); [| discriminate].
    unfold RubricParser._parse_lines in H.
    pose proof (parse_lines_from_outcome
                  (split RubricParser.newline (strip content)) 1) as Hout.
    destruct (RubricParser._parse_lines_from 1 _) as [cs | e];
      cbn [bind] in H.
    + destruct cs; [discriminate |].
      unfold Rubric.new in H.
      destruct (_ && _); [| discriminate].
      destruct (1 <=? _); [| discriminate].
      destruct (negb _); discriminate.
    + injection H as ->.
      destruct Hout as [(msg' & k' & Heq & Hk) | (msg' & Heq)];
        [| discriminate].
      injection Heq as _ <-. lia.
Qed.

Lemma parse_error_names_a_line_witness :
  RubricParser.parse
    (Sample.text ["Essay Rubric"; Sample.LINE; "2. Style (0 points): Register"])
    "Grading Rubric"
  = Raise (RubricParseError "Points must be positive" (Some 3))
  /\ 1 <= 3 <= 3.
Proof.
  split; [reflexivity |].
  apply (proj2 (parse_error_names_a_line
                  (Sample.text ["Essay Rubric"; Sample.LINE;
                                "2. Style (0 points): Register"])
                  "Grading Rubric")
               "Points must be positive" 3).
  reflexivity.
Defined.

(* ================================================================== *)
(** * What the rubric validator accepts *)
(* ================================================================== *)

Lemma validator_lookup_cons k k' v d :
  RubricValidator.lookup k ((k', v) :: d)
  = if String.eqb k k' then Some v else RubricValidator.lookup k d.
Proof. reflexivity. Qed.

Lemma check_duplicates_from_nil cs :
  forall i seen,
    RubricValidator._check_duplicates_from i seen cs = []
    <-> NoDup (map duplicate_key cs)
        /\ forall c, In c cs -> RubricValidator.lookup (duplicate_key c) seen = None.
Proof.
  induction cs as [| c cs IH]; intros i seen;
    cbn [RubricValidator._check_duplicates_from].
  - split; [intros _; split; [constructor | intros c []] | reflexivity].
  - fold (duplicate_key c).
    destruct (RubricValidator.lookup (duplicate_key c) seen) as [first |] eqn:E.
    + split; [discriminate |].
      intros [_ H]. specialize (H c (or_introl eq_refl)). congruence.
    + rewrite IH. cbn [map]. split.
      * intros [Hnd Hseen]. split.
        -- constructor; [| exact Hnd].
           intros Hin. apply in_map_iff in Hin. destruct Hin as (c' & Hk & Hc').
           specialize (Hseen c' Hc'). rewrite validator_lookup_cons, Hk in Hseen.
           rewrite String.eqb_refl in Hseen. discriminate.
        -- intros c' [<- | Hc']; [exact E |].
           specialize (Hseen c' Hc'). rewrite validator_lookup_cons in Hseen.
           destruct (String.eqb _ _); [discriminate | exact Hseen].
      * intros [Hnd Hseen]. inversion Hnd as [| ? ? Hnotin Hnd']; subst.
        split; [exact Hnd' |].
        intros c' Hc'. rewrite validator_lookup_cons.
        destruct (String.eqb_spec (duplicate_key c') (duplicate_key c)) as [Heq | _].
        -- exfalso. apply Hnotin. rewrite <- Heq. apply in_map, Hc'.
        -- apply Hseen. right. exact Hc'.
Qed.


Lemma check_duplicates_nil (criteria : list RubricCriterion.t) :
  RubricValidator._check_duplicates criteria = []
  <-> NoDup (map duplicate_key criteria).
Proof.
  unfold RubricValidator._check_duplicates.
  rewrite check_duplicates_from_nil. split; [tauto |].
  intros H. split; [exact H | reflexivity].
Qed.


Lemma validate_criterion_nil (c : RubricCriterion.t) (index : nat) :
  RubricValidator._validate_criterion c index = [] <-> criterion_passes c.
Proof.
  unfold RubricValidator._validate_criterion, criterion_passes,
    RubricValidator.MIN_DESCRIPTION_LENGTH,
    RubricValidator.MAX_POINTS_PER_CRITERION.
  destruct (Nat.ltb_spec (String.length (strip (RubricCriterion.name c))) 2)
    as [Hn | Hn].
  { split; [discriminate | intros [H _]; lia]. }
  destruct (Nat.ltb_spec
              (String.length (strip (RubricCriterion.description c))) 10)
    as [Hd | Hd].
  { split; [discriminate | intros (_ & H & _); lia]. }
  cbn [app].
  assert (Hv : RubricValidator.vague_found c = []
               <-> forall w, In w RubricValidator.VAGUE_WORDS ->
                             contains w (lower (RubricCriterion.description c))
                             = false).
  { unfold RubricValidator.vague_found. cbv zeta.
    induction RubricValidator.VAGUE_WORDS as [| w ws IH]; cbn [filter].
    - split; [intros _ w [] | reflexivity].
    - destruct (contains w _) eqn:E.
      + split; [discriminate |]. intros H.
        specialize (H w (or_introl eq_refl)). congruence.
      + rewrite IH. split.
        * intros H w' [<- | Hw']; [exact E | apply H, Hw'].
        * intros H w' Hw'. apply H. right. exact Hw'. }
  destruct (RubricValidator.vague_found c) as [| w ws] eqn:Ef.
  - cbn [app].
    destruct (Qlt_bool 1000 (RubricCriterion.max_points c)) eqn:Ep.
    + apply Qlt_bool_iff in Ep. split; [discriminate |].
      intros (_ & _ & _ & H). exfalso. apply (Qlt_not_le _ _ Ep H).
    + apply Qlt_bool_false_iff in Ep. split; [| reflexivity].
      intros _. repeat split; auto. apply Hv. reflexivity.
  - split; [discriminate |].
    intros (_ & _ & H & _). apply Hv in H. discriminate.
Qed.

Lemma validate_criteria_from_nil cs :
  forall i,
    RubricValidator._validate_criteria_from i cs = []
    <-> Forall criterion_passes cs.
Proof.
  induction cs as [| c cs IH]; intros i;
    cbn [RubricValidator._validate_criteria_from].
  - split; [constructor | reflexivity].
  - split.
    + intros H. apply app_eq_nil in H. destruct H as [Hc Hcs].
      constructor; [eapply validate_criterion_nil, Hc | eapply IH, Hcs].
    + intros H. inversion H as [| ? ? Hc Hcs]; subst.
      apply (validate_criterion_nil c i) in Hc. apply (IH (S i)) in Hcs.
      rewrite Hc, Hcs. reflexivity.
Qed.

Lemma validate_or_raise_cases (rubric : Rubric.t) :
  (RubricValidator.validate_or_raise rubric = RubricValidator.Passed
   <-> nonempty (strip (Rubric.title rubric)) = true
       /\ Rubric.criteria rubric <> []
       /\ Forall criterion_passes (Rubric.criteria rubric)
       /\ NoDup (map duplicate_key (Rubric.criteria rubric))
       /\ (0 < Rubric.total_max_points rubric
           /\ Rubric.total_max_points rubric <= 1000)%Q)
  /\ (forall errors,
         RubricValidator.validate_or_raise rubric
         = RubricValidator.RubricValidationError errors ->
         errors <> [] /\ RubricValidator.validate rubric = (false, errors)).
Proof.
  unfold RubricValidator.validate_or_raise, RubricValidator.validate.
  set (issues := RubricValidator._validate_structure rubric ++ _).
  assert (Hnil : issues = []
                 <-> nonempty (strip (Rubric.title rubric)) = true
                     /\ Rubric.criteria rubric <> []
                     /\ Forall criterion_passes (Rubric.criteria rubric)
                     /\ NoDup (map duplicate_key (Rubric.criteria rubric))
                     /\ (0 < Rubric.total_max_points rubric
                         /\ Rubric.total_max_points rubric <= 1000)%Q).
  { unfold issues.
    rewrite <- (validate_criteria_from_nil (Rubric.criteria rubric) 1).
    rewrite <- (check_duplicates_nil (Rubric.criteria rubric)).
    assert (Hs : RubricValidator._validate_structure rubric = []
                 <-> nonempty (strip (Rubric.title rubric)) = true
                     /\ Rubric.criteria rubric <> []).
    { unfold RubricValidator._validate_structure.
      destruct (nonempty _); destruct (Rubric.criteria rubric); cbn;
        (split; [try discriminate | try reflexivity]);
        try (intros _; split; [reflexivity | discriminate]);
        try (intros [H1 H2]; congruence). }
    assert (Ht : RubricValidator._validate_total_points rubric = []
                 <-> (0 < Rubric.total_max_points rubric
                      /\ Rubric.total_max_points rubric <= 1000)%Q).
    { unfold RubricValidator._validate_total_points.
      destruct (Qle_bool (Rubric.total_max_points rubric) 0) eqn:E0.
      - apply Qle_bool_iff in E0. split; [discriminate |].
        intros [H _]. exfalso. apply (Qlt_not_le _ _ H E0).
      - assert (H0 : (0 < Rubric.total_max_points rubric)%Q)
          by (apply Qlt_bool_iff; unfold Qlt_bool; rewrite E0; reflexivity).
        cbn [app].
        destruct (Qlt_bool 1000 (Rubric.total_max_points rubric)) eqn:E1.
        + apply Qlt_bool_iff in E1. split; [discriminate |].
          intros [_ H]. exfalso. apply (Qlt_not_le _ _ E1 H).
        + apply Qlt_bool_false_iff in E1. split; [auto | reflexivity]. }
    split.
    - intros H. apply app_eq_nil in H. destruct H as [H1 H].
      apply app_eq_nil in H. destruct H as [H2 H].
      apply app_eq_nil in H. destruct H as [H3 H4].
      apply Hs in H1. apply Ht in H4. tauto.
    - intros (H1a & H1b & H2 & H3 & H4).
      rewrite (proj2 Hs (conj H1a H1b)), H2, H3. cbn [app]. apply Ht, H4. }
  split.
  - rewrite <- Hnil. destruct issues; cbn; split; congruence.
  - intros errors. destruct issues eqn:E; cbn; [discriminate |].
    intros H. injection H as <-. split; [discriminate | reflexivity].
Qed.

(** X4. [validate_or_raise] returns exactly for the rubrics with a
    title that is not blank, at least one criterion, criteria that each
    have a name of two characters, a description of ten, no word of the
    vague vocabulary inside the description and at most 1000 points,
    names pairwise different after lowering and stripping, and a total
    in (0, 1000]; otherwise it raises with the issues, of which there
    is at least one. *)
Theorem validate_or_raise_spec (rubric : Rubric.t) :
  (RubricValidator.validate_or_raise rubric = RubricValidator.Passed
   <-> nonempty (strip (Rubric.title rubric)) = true
       /\ Rubric.criteria rubric <> []
       /\ Forall criterion_passes (Rubric.criteria rubric)
       /\ NoDup (map duplicate_key (Rubric.criteria rubric))
       /\ (0 < Rubric.total_max_points rubric
           /\ Rubric.total_max_points rubric <= 1000)%Q)
  /\ (forall errors,
         RubricValidator.validate_or_raise rubric
         = RubricValidator.RubricValidationError errors ->
         errors <> [] /\ RubricValidator.validate rubric = (false, errors)).
Proof. apply validate_or_raise_cases. Qed.


Lemma validate_or_raise_spec_witness :
  RubricValidator.validate_or_raise Sample.sample_rubric = RubricValidator.Passed
  /\ [RubricValidator.DuplicateName "content" 1 2] <> []
  /\ RubricValidator.validate Sample.case_rubric
     = (false, [RubricValidator.DuplicateName "content" 1 2]).
Proof.
  split; [reflexivity |].
  apply (proj2 (validate_or_raise_spec Sample.case_rubric)
               [RubricValidator.DuplicateName "content" 1 2]).
  reflexivity.
Defined.

(* ================================================================== *)
(** * What the response parser makes of the entries *)
(* ================================================================== *)

Section EntryFacts.
Context {py : PythonRuntime}.

Lemma process_item_entry lookup i item results seen results' seen' :
  ResponseParser.process_item lookup i item (results, seen) = Ok (results', seen') ->
  exists r, entry_result lookup item r /\ results' = results ++ [r].
Proof.
  unfold ResponseParser.process_item.
  destruct item as [| | | | | it]; try discriminate.
  fold (reported_name it).
  destruct (nonempty (reported_name it)); [| discriminate].
  destruct (ResponseParser.resolve lookup (reported_name it)) as [c |] eqn:Hres;
    [| discriminate].
  destruct (negb (mem (key_of c) seen)); [| discriminate].
  destruct (ResponseParser._parse_decimal _ _) as [a |] eqn:Ha; cbn [bind];
    [| discriminate].
  destruct (negb (Qlt_bool a 0)) eqn:H0; [| discriminate].
  destruct (negb (Qlt_bool (RubricCriterion.max_points c) a)) eqn:H1;
    [| discriminate].
  destruct (nonempty _) eqn:Hj; [| discriminate].
  destruct (CriterionResult_new_after_guards (RubricCriterion.name c)
              (RubricCriterion.max_points c) a _
              (ResponseParser.deduction_reason_of it) H0 H1 Hj) as [Hnew _].
  rewrite Hnew. cbn [bind]. intros H. injection H as <- _.
  eexists. split; [| reflexivity].
  exists it, c, a. eexists. repeat split; try eassumption; try reflexivity.
  - apply negb_true_iff, Qlt_bool_false_iff in H0. exact H0.
  - apply negb_true_iff, Qlt_bool_false_iff in H1. exact H1.
Qed.

Lemma process_items_entries lookup items :
  forall i results seen results' seen',
    ResponseParser.process_items lookup i items (results, seen)
    = Ok (results', seen') ->
    exists rs, results' = results ++ rs /\ Forall2 (entry_result lookup) items rs.
Proof.
  induction items as [| item items IH]; intros i results seen results' seen' H;
    cbn [ResponseParser.process_items] in H.
  - injection H as <- _. exists []. rewrite app_nil_r. split; [reflexivity | constructor].
  - destruct (ResponseParser.process_item lookup i item (results, seen))
      as [[results1 seen1] |] eqn:E; cbn [bind] in H; [| discriminate].
    apply process_item_entry in E. destruct E as (r & Hr & ->).
    destruct (IH _ _ _ _ _ H) as (rs & -> & Hall).
    exists (r :: rs). rewrite <- app_assoc. split; [reflexivity |].
    constructor; assumption.
Qed.

Lemma deduction_reason_of_not_null (it : Dict.t json) :
  ResponseParser.deduction_reason_of it <> Some "null".
Proof.
  unfold ResponseParser.deduction_reason_of.
  destruct (Dict.get "deduction_reason" it) as [v |]; [| discriminate].
  destruct v; try discriminate;
    match goal with
    | |- context [String.eqb ?a ?b] => destruct (String.eqb_spec a b)
    end; try discriminate; congruence.
Qed.

Lemma parse_criteria_results_entries (results_data : json) (rubric : Rubric.t)
        (results : list CriterionResult.t) :
  ResponseParser._parse_criteria_results results_data rubric = Ok results ->
  exists items,
    results_data = JList items
    /\ Forall2 (entry_result (ResponseParser.rubric_lookup rubric)) items results
    /\ Forall (fun r => CriterionResult.justification r <> EmptyString
                        /\ CriterionResult.deduction_reason r <> Some "null")
              results.
Proof.
  intros H.
  pose proof (parse_criteria_results_Ok _ _ _ H) as (items' & -> & Hgraded & _).
  unfold ResponseParser._parse_criteria_results in H.
  destruct (ResponseParser.process_items _ 0 items' ([], []))
    as [[rs seen] |] eqn:E; cbn [bind] in H; [| discriminate].
  destruct (ResponseParser.missing_keys _ seen); [| discriminate].
  injection H as <-.
  apply process_items_entries in E. destruct E as (rs' & -> & Hall).
  cbn [app] in *. exists items'. split; [reflexivity |]. split; [exact Hall |].
  apply Forall_forall. intros r Hr.
  destruct (Forall2_In_r _ _ _ Hall r Hr)
    as (item & _ & it & c & a & fld & _ & _ & _ & _ & ->).
  destruct (Forall2_In_r _ _ _ Hgraded _ Hr)
    as (item' & _ & it' & c' & _ & _ & _ & _ & Hvalid).
  cbn [CriterionResult.justification CriterionResult.deduction_reason].
  split; [| apply deduction_reason_of_not_null].
  unfold CriterionResult.valid in Hvalid.
  cbn [CriterionResult.justification] in Hvalid.
  intros Heq. rewrite Heq in Hvalid. cbn in Hvalid.
  rewrite andb_false_r in Hvalid. discriminate.
Qed.

(** X5. The criterion results of an accepted response follow its entries
    one by one, in their order: each has the name and the points of
    the rubric criterion that the entry resolves to, the awarded points
    parsed from the entry, which lie between 0 and those points, a
    justification that is not empty, and a deduction reason that is
    never the text "null". *)
Theorem results_follow_entries (results_data : json) (rubric : Rubric.t)
        (results : list CriterionResult.t) :
  ResponseParser._parse_criteria_results results_data rubric = Ok results ->
  exists items,
    results_data = JList items
    /\ Forall2 (entry_result (ResponseParser.rubric_lookup rubric)) items results
    /\ Forall (fun r => CriterionResult.justification r <> EmptyString
                        /\ CriterionResult.deduction_reason r <> Some "null")
              results.
Proof. apply parse_criteria_results_entries. Qed.

(** X6. An entry without the key [awarded_points] is not rejected: its
    criterion result is awarded 0 points. *)
Theorem missing_awarded_points_is_zero (results_data : json) (rubric : Rubric.t)
        (results : list CriterionResult.t) :
  ResponseParser._parse_criteria_results results_data rubric = Ok results ->
  exists items,
    results_data = JList items
    /\ Forall2 (fun item r =>
                  forall it,
                    item = JDict it ->
                    Dict.get "awarded_points" it = None ->
                    CriterionResult.awarded_points r = 0%Q)
               items results.
Proof.
  intros H. destruct (parse_criteria_results_entries _ _ _ H) as (items & -> & Hall & _).
  exists items. split; [reflexivity |].
  eapply Forall2_impl; [| exact Hall].
  intros item r (it & c & a & fld & -> & _ & Ha & _ & ->) it' Heq Hnone.
  injection Heq as <-. cbn [CriterionResult.awarded_points].
  unfold ResponseParser.get_default in Ha. rewrite Hnone in Ha.
  cbn in Ha. injection Ha as <-. reflexivity.
Qed.

End EntryFacts.

Lemma results_follow_entries_witness :
  exists items,
    JList [Sample.entry "Clarity" 15; Sample.entry "Accuracy" 5] = JList items
    /\ Forall2 (@entry_result Sample.runtime
                  (ResponseParser.rubric_lookup Sample.rubric))
               items
               [ CriterionResult.mk "Clarity" 20 15
                   "The answer says so in its first line." None;
                 CriterionResult.mk "Accuracy" 10 5
                   "The answer says so in its first line." None ]
    /\ Forall (fun r => CriterionResult.justification r <> EmptyString
                        /\ CriterionResult.deduction_reason r <> Some "null")
              [ CriterionResult.mk "Clarity" 20 15
                  "The answer says so in its first line." None;
                CriterionResult.mk "Accuracy" 10 5
                  "The answer says so in its first line." None ].
Proof.
  apply (@results_follow_entries Sample.runtime
           (JList [Sample.entry "Clarity" 15; Sample.entry "Accuracy" 5])
           Sample.rubric).
  reflexivity.
Defined.

Lemma missing_awarded_points_is_zero_witness :
  exists items,
    JList [ JDict [ ("criterion", JStr "Accuracy");
                    ("justification", JStr "Nothing is said of it.") ];
            Sample.entry "Clarity" 15 ] = JList items
    /\ Forall2 (fun item r =>
                  forall it,
                    item = JDict it ->
                    Dict.get "awarded_points" it = None ->
                    CriterionResult.awarded_points r = 0%Q)
               items
               [ CriterionResult.mk "Accuracy" 10 0
                   "Nothing is said of it." None;
                 CriterionResult.mk "Clarity" 20 15
                   "The answer says so in its first line." None ].
Proof.
  apply (@missing_awarded_points_is_zero Sample.runtime
           (JList [ JDict [ ("criterion", JStr "Accuracy");
                            ("justification", JStr "Nothing is said of it.") ];
                    Sample.entry "Clarity" 15 ])
           Sample.rubric).
  reflexivity.
Defined.

(* ================================================================== *)
(** * Resolution of a reported name *)
(* ================================================================== *)

Lemma partial_match_sound (n : string) (lookup : Dict.t RubricCriterion.t)
      (c : RubricCriterion.t) :
  ResponseParser.partial_match n lookup = Some c ->
  exists k, In (k, c) lookup /\ (contains k n = true \/ contains n k = true).
Proof.
  induction lookup as [| [k0 c0] lookup IH]; simpl; [discriminate |].
  destruct (contains k0 n || contains n k0) eqn:E.
  - intros H. injection H as ->. exists k0. split; [left; reflexivity |].
    apply orb_true_iff, E.
  - intros H. destruct (IH H) as (k & Hk & Hc). exists k. split; [right |]; assumption.
Qed.

(** X7. A reported name resolves only to a criterion of the rubric whose
    lowered name is equal to the lowered reported name, is a part of
    it, or has it as a part; and in a rubric whose lowered names are
    pairwise different, every name that equals a criterion's name up to
    case resolves to that criterion. *)
Theorem resolve_spec (rubric : Rubric.t) :
  let lookup := ResponseParser.rubric_lookup rubric in
  (forall n c,
      ResponseParser.resolve lookup n = Some c ->
      In c (Rubric.criteria rubric)
      /\ (lower n = lower (RubricCriterion.name c)
          \/ contains (lower (RubricCriterion.name c)) (lower n) = true
          \/ contains (lower n) (lower (RubricCriterion.name c)) = true))
  /\ (NoDup (map (fun c => lower (RubricCriterion.name c)) (Rubric.criteria rubric)) ->
      forall n c,
        In c (Rubric.criteria rubric) ->
        lower n = lower (RubricCriterion.name c) ->
        ResponseParser.resolve lookup n = Some c).
Proof.
  intros lookup. split.
  - intros n c H. unfold ResponseParser.resolve in H.
    destruct (Dict.get (lower n) lookup) as [c' |] eqn:E.
    + injection H as ->. apply Dict_get_In in E.
      apply rubric_lookup_entries in E. destruct E as [Hc Hk]. auto.
    + apply partial_match_sound in H. destruct H as (k & Hk & Hcontains).
      apply rubric_lookup_entries in Hk. destruct Hk as [Hc ->]. tauto.
  - intros Hnd n c Hc Hn. unfold ResponseParser.resolve.
    rewrite (Dict_In_get _ (lower n) c lookup); [reflexivity | |].
    + apply rubric_lookup_NoDup.
    + unfold lookup. rewrite (rubric_lookup_distinct rubric Hnd), Hn.
      apply in_map_iff. eauto.
Qed.

Lemma resolve_spec_witness :
  ResponseParser.resolve (ResponseParser.rubric_lookup Sample.sample_rubric)
    "CONCLUSION"
  = Some (RubricCriterion.mk "Conclusion"
            "Essay includes a strong conclusion that summarizes key points"
            20 true)
  /\ In (RubricCriterion.mk "Content Accuracy"
           "The answer demonstrates accurate understanding of the topic with correct facts"
           30 true)
        (Rubric.criteria Sample.sample_rubric).
Proof.
  destruct (resolve_spec Sample.sample_rubric) as [Hsound Hexact].
  split.
  - apply Hexact.
    + repeat constructor; simpl; intuition discriminate.
    + right. right. right. left. reflexivity.
    + reflexivity.
  - apply (Hsound "Accuracy"). reflexivity.
Defined.

(* ================================================================== *)
(** * A validated rubric and an accepted response *)
(* ================================================================== *)



Section CoverFacts.
Context {py : PythonRuntime}.




End CoverFacts.


(* ================================================================== *)
(** * The passes of the engine *)
(* ================================================================== *)

Section PassFacts.
Context {py : PythonRuntime}.
Variable settings : GradingEngine.Settings.
Variable generate : nat -> result string.
Variables uuid4 utcnow : nat -> N.
Variable rubric : Rubric.t.

Abbreviation outcome := (pass_outcome generate uuid4 utcnow rubric).
Abbreviation succeeded := (successes generate uuid4 utcnow rubric).
Abbreviation failed := (failures generate uuid4 utcnow rubric).

Lemma passes_loop_step n i passes errors :
  GradingEngine._passes_loop generate uuid4 utcnow rubric (S n) i passes errors
  = match outcome i with
    | Ok p =>
        GradingEngine._passes_loop generate uuid4 utcnow rubric n (S i)
          (passes ++ [p]) errors
    | Raise (LLMError m) =>
        GradingEngine._passes_loop generate uuid4 utcnow rubric n (S i)
          passes (errors ++ [LLMError m])
    | Raise (ScoringError m) =>
        GradingEngine._passes_loop generate uuid4 utcnow rubric n (S i)
          passes (errors ++ [ScoringError m])
    | Raise e => Raise e
    end.
Proof. reflexivity. Qed.

(** While every pass succeeds or fails with an absorbed error, the loop
    collects the successes and the errors in the order of the calls. *)
Lemma passes_loop_collects n :
  forall i passes errors,
    (forall j e, i <= j < i + n -> outcome j = Raise e -> absorbed e) ->
    GradingEngine._passes_loop generate uuid4 utcnow rubric n i passes errors
    = Ok (passes ++ succeeded i n, errors ++ failed i n).
Proof.
  induction n as [| n IH]; intros i passes errors Hall.
  - cbn. rewrite !app_nil_r. reflexivity.
  - rewrite passes_loop_step. unfold successes, failures. cbn [seq flat_map].
    fold (succeeded (S i) n). fold (failed (S i) n).
    assert (Hrest : forall j e, S i <= j < S i + n ->
                                outcome j = Raise e -> absorbed e).
    { intros j e Hj. apply Hall. lia. }
    destruct (outcome i) as [p | e] eqn:E.
    + rewrite (IH (S i) _ _ Hrest). rewrite <- app_assoc. reflexivity.
    + assert (He : absorbed e) by (apply (Hall i); [lia | exact E]).
      destruct e; try destruct He;
        rewrite (IH (S i) _ _ Hrest), <- app_assoc; reflexivity.
Qed.

(** An error that is not absorbed leaves the loop at once. *)
Lemma passes_loop_aborts n :
  forall i k e passes errors,
    i <= k < i + n ->
    (forall j e', i <= j < k -> outcome j = Raise e' -> absorbed e') ->
    outcome k = Raise e ->
    ~ absorbed e ->
    GradingEngine._passes_loop generate uuid4 utcnow rubric n i passes errors
    = Raise e.
Proof.
  induction n as [| n IH]; intros i k e passes errors Hk Hbefore Hke Hne; [lia |].
  rewrite passes_loop_step.
  destruct (Nat.eq_dec i k) as [-> | Hik].
  - rewrite Hke. destruct e; try reflexivity; exfalso; apply Hne; exact I.
  - assert (Hrest : forall j e', S i <= j < k ->
                                 outcome j = Raise e' -> absorbed e').
    { intros j e' Hj. apply Hbefore. lia. }
    destruct (outcome i) as [p | e0] eqn:E.
    + apply (IH (S i) k); auto. lia.
    + assert (He0 : absorbed e0) by (apply (Hbefore i); [lia | exact E]).
      destruct e0; try destruct He0; apply (IH (S i) k); auto; lia.
Qed.

(** X9. When every pass succeeds or fails with an [LLMError] or a
    [ScoringError], [_perform_passes] returns the successful passes in
    the order of the calls, at most as many as were asked for; when none
    succeeds it raises the error of the first call, and when no pass
    was asked for it raises the [LLMError] of no successful pass. *)
Theorem perform_passes_spec (num_passes : Z) :
  let n := Z.to_nat num_passes in
  (forall j e, j < n -> outcome j = Raise e -> absorbed e) ->
  (succeeded 0 n <> [] ->
   GradingEngine._perform_passes generate uuid4 utcnow rubric num_passes
   = Ok (succeeded 0 n)
   /\ List.length (succeeded 0 n) <= n)
  /\ (succeeded 0 n = [] ->
      forall e, outcome 0 = Raise e -> 0 < n ->
      GradingEngine._perform_passes generate uuid4 utcnow rubric num_passes
      = Raise e)
  /\ (n = 0 ->
      GradingEngine._perform_passes generate uuid4 utcnow rubric num_passes
      = Raise (LLMError "No successful grading passes completed")).
Proof.
  intros n Hall. unfold GradingEngine._perform_passes. fold n.
  rewrite passes_loop_collects by (intros j e Hj; apply Hall; lia).
  cbn [bind app].
  split; [| split].
  - intros Hne. split.
    + destruct (succeeded 0 n); [congruence | reflexivity].
    + clear. unfold successes. generalize 0.
      induction n as [| n' IH]; intros i; cbn [seq flat_map]; [cbn; lia |].
      rewrite length_app. specialize (IH (S i)).
      destruct (outcome i); cbn [List.length]; lia.
  - intros Hnil e He Hn. rewrite Hnil.
    destruct n as [| n']; [lia |].
    unfold failures. cbn [seq flat_map]. rewrite He. reflexivity.
  - intros Hn. rewrite Hn. reflexivity.
Qed.

(** X10. An exception of a pass that is neither an [LLMError] nor a
    [ScoringError] is not absorbed: if the passes before it succeeded or
    failed with absorbed errors, [_perform_passes] and [grade] raise it,
    whatever the other passes give. *)
Theorem unabsorbed_error_aborts_grading
        (student_answer : string) (num_passes : Z) (k : nat) (e : exn) :
  k < Z.to_nat num_passes ->
  (forall j e', j < k -> outcome j = Raise e' -> absorbed e') ->
  outcome k = Raise e ->
  ~ absorbed e ->
  GradingEngine._perform_passes generate uuid4 utcnow rubric num_passes = Raise e
  /\ GradingEngine.grade settings generate uuid4 utcnow rubric student_answer
       (Some num_passes)
     = Raise e.
Proof.
  intros Hk Hbefore Hke Hne.
  assert (Hp : GradingEngine._perform_passes generate uuid4 utcnow rubric num_passes
               = Raise e).
  { unfold GradingEngine._perform_passes.
    rewrite (passes_loop_aborts _ 0 k e); auto; [lia |].
    intros j e' Hj. apply Hbefore. lia. }
  split; [exact Hp |].
  unfold GradingEngine.grade, GradingEngine.passes_or_default.
  destruct (Z.eqb_spec num_passes 0) as [-> | _]; [cbn in Hk; lia |].
  rewrite Hp. reflexivity.
Qed.

End PassFacts.

Lemma perform_passes_spec_witness :
  @GradingEngine._perform_passes Sample.runtime Sample.generate Sample.uuid4
    Sample.utcnow Sample.rubric100 4
  = Ok (@successes Sample.runtime Sample.generate Sample.uuid4 Sample.utcnow
          Sample.rubric100 0 4)
  /\ List.length (@successes Sample.runtime Sample.generate Sample.uuid4
                    Sample.utcnow Sample.rubric100 0 4) = 3.
Proof.
  split; [| reflexivity].
  refine (proj1 (proj1 (@perform_passes_spec Sample.runtime Sample.generate
                          Sample.uuid4 Sample.utcnow Sample.rubric100 4 _) _)).
  - intros j e Hj.
    destruct j as [| [| [| [| j]]]]; cbn; intros H; try discriminate.
    + injection H as <-. exact I.
    + cbn in Hj. lia.
  - discriminate.
Defined.

Lemma unabsorbed_error_aborts_grading_witness :
  @GradingEngine.grade runtime_blank Sample.settings generate_blank Sample.uuid4
    Sample.utcnow Sample.rubric100 "An answer." (Some 3%Z)
  = Raise (ValidationError "GradingResult").
Proof.
  refine (proj2 (@unabsorbed_error_aborts_grading runtime_blank Sample.settings
                   generate_blank Sample.uuid4 Sample.utcnow Sample.rubric100
                   "An answer." 3 1 (ValidationError "GradingResult") _ _ _ _)).
  - cbn. lia.
  - intros j e' Hj. destruct j as [| j]; [| lia]. discriminate.
  - reflexivity.
  - intros H. exact H.
Defined.

(* ================================================================== *)
(** * What the engine returns *)
(* ================================================================== *)

Section FeedbackFacts.
Context {py : PythonRuntime}.

(** X11. A response whose parts are all accepted but whose
    [overall_feedback] is the empty text is not a [ScoringError]: the
    constructor of [GradingResult] raises its [ValidationError]. *)
Theorem empty_feedback_is_validation_error
        (d : Dict.t json) (rubric : Rubric.t) (id graded : N)
        (rd ts mp fb : json) (crs : list CriterionResult.t) (t m : Q) :
  Dict.get "criteria_results" d = Some rd ->
  ResponseParser._parse_criteria_results rd rubric = Ok crs ->
  Dict.get "total_score" d = Some ts ->
  ResponseParser._parse_decimal ts "total_score" = Ok t ->
  Dict.get "max_possible" d = Some mp ->
  ResponseParser._parse_decimal mp "max_possible" = Ok m ->
  (m == Rubric.total_max_points rubric)%Q ->
  Dict.get "overall_feedback" d = Some fb ->
  ResponseParser.str fb = EmptyString ->
  ResponseParser._validate_and_convert (JDict d) rubric id graded
  = Raise (ValidationError "GradingResult").
Proof.
  intros Hrd Hcrs Hts Ht Hmp Hm Heq Hfb Hblank.
  rewrite (validate_and_convert_fields d rubric id graded rd ts mp fb)
    by assumption.
  rewrite Hcrs, Ht, Hm. cbn [bind].
  apply Qeq_bool_iff in Heq. rewrite Heq.
  unfold GradingResult.new, GradingResult.valid.
  cbn [GradingResult.criteria_results GradingResult.overall_feedback
       GradingResult.llm_passes_used].
  rewrite Hblank. cbn [String.length Nat.leb].
  rewrite andb_false_r. reflexivity.
Qed.

End FeedbackFacts.

Lemma empty_feedback_is_validation_error_witness :
  @ResponseParser._validate_and_convert Sample.runtime
    (JDict [ ("total_score", JNum 85);
             ("max_possible", JNum 100);
             ("criteria_results", JList [Sample.entry "Overall" 85]);
             ("overall_feedback", JStr "") ])
    Sample.rubric100 1 2
  = Raise (ValidationError "GradingResult").
Proof.
  refine (@empty_feedback_is_validation_error Sample.runtime _ Sample.rubric100
            1 2 (JList [Sample.entry "Overall" 85]) (JNum 85) (JNum 100)
            (JStr "") _ 85 100 _ _ _ _ _ _ _ _ _); reflexivity.
Defined.

Lemma min_by_In {A : Type} (key : A -> Q) (x : A) (xs : list A) :
  In (min_by key x xs) (x :: xs).
Proof.
  destruct (min_by_first_least key x xs) as [i [Hi _]].
  eapply nth_error_In, Hi.
Qed.

Section GradeFacts.
Context {py : PythonRuntime}.
Variable settings : GradingEngine.Settings.
Variable generate : nat -> result string.
Variables uuid4 utcnow : nat -> N.

Lemma select_result_In passes selected variance_detected :
  GradingEngine._select_result settings passes = Ok (selected, variance_detected) ->
  exists p, In p passes /\ selected = GradingEngine.result_ p.
Proof.
  unfold GradingEngine._select_result.
  destruct passes as [| p1 [| p2 rest]].
  - cbn. discriminate.
  - intros H. injection H as <- _. exists p1. split; [left |]; reflexivity.
  - destruct (median _) as [m |]; cbn [bind]; [| discriminate].
    intros H.
    exists (min_by (fun q => Qabs (GradingEngine.total_score q - m)) p1
                   (p2 :: rest)).
    split; [apply min_by_In | congruence].
Qed.

(** X12. The result that [grade] returns has the identifier, the rubric
    title, the criterion results and the feedback of one of the
    successful passes; its [llm_passes_used], like the [passes_count] of
    the audit record, is the number of passes asked for, whether or not
    all of them succeeded. *)
Theorem grade_returns_a_pass
        (rubric : Rubric.t) (student_answer : string) (passes : option Z)
        (final : GradingResult.t) (audit : GradingEngine.AuditRecord) :
  GradingEngine.grade settings generate uuid4 utcnow rubric student_answer passes
  = Ok (final, audit) ->
  exists successful p,
    GradingEngine._perform_passes generate uuid4 utcnow rubric
      (GradingEngine.passes_or_default settings passes)
    = Ok successful
    /\ In p successful
    /\ GradingResult.submission_id final
       = GradingResult.submission_id (GradingEngine.result_ p)
    /\ GradingResult.rubric_title final
       = GradingResult.rubric_title (GradingEngine.result_ p)
    /\ GradingResult.criteria_results final
       = GradingResult.criteria_results (GradingEngine.result_ p)
    /\ GradingResult.overall_feedback final
       = GradingResult.overall_feedback (GradingEngine.result_ p)
    /\ GradingResult.llm_passes_used final
       = GradingEngine.passes_or_default settings passes
    /\ GradingEngine.passes_count audit
       = GradingEngine.passes_or_default settings passes.
Proof.
  intros H. unfold GradingEngine.grade in H.
  destruct (GradingEngine._perform_passes _ _ _ _ _) as [gp |] eqn:Hpasses;
    cbn [bind] in H; [| discriminate].
  destruct (GradingEngine._select_result settings gp)
    as [[final_result vd] |] eqn:Hsel; cbn [bind] in H; [| discriminate].
  destruct (select_result_In _ _ _ Hsel) as (p & Hp & ->).
  unfold GradingResult.new in H.
  destruct (GradingResult.valid _); [| discriminate].
  injection H as <- <-.
  exists gp, p. repeat split; auto.
Qed.

End GradeFacts.

Lemma grade_returns_a_pass_witness :
  exists final audit,
    @GradingEngine.grade Sample.runtime Sample.settings Sample.generate
      Sample.uuid4 Sample.utcnow Sample.rubric100 "An answer." (Some 4%Z)
    = Ok (final, audit)
    /\ GradingResult.llm_passes_used final = 4%Z
    /\ GradingEngine.passes_count audit = 4%Z.
Proof.
  eexists. eexists. split; [reflexivity |].
  destruct (@grade_returns_a_pass Sample.runtime Sample.settings Sample.generate
              Sample.uuid4 Sample.utcnow Sample.rubric100 "An answer."
              (Some 4%Z) _ _ eq_refl)
    as (successful & p & _ & _ & _ & _ & _ & _ & Hused & Hcount).
  split; [exact Hused | exact Hcount].
Defined.

(* ================================================================== *)
(** * The variance between the passes *)
(* ================================================================== *)

Lemma max_fold_spec (rest : list Q) :
  forall best,
    let r := fold_left (fun best y => if Qlt_bool best y then y else best)
                       rest best in
    (r = best \/ In r rest) /\ (best <= r)%Q
    /\ Forall (fun y => (y <= r)%Q) rest.
Proof.
  induction rest as [| a rest IH]; intros best; cbn [fold_left].
  - split; [left; reflexivity |]. split; [lra | constructor].
  - destruct (Qlt_bool best a) eqn:E.
    + apply Qlt_bool_iff in E.
      destruct (IH a) as ([H | H] & Hle & Hall).
      * split; [right; left; symmetry; exact H |].
        split; [lra |]. constructor; [exact Hle | exact Hall].
      * split; [right; right; exact H |].
        split; [lra |]. constructor; [exact Hle | exact Hall].
    + apply Qlt_bool_false_iff in E.
      destruct (IH best) as ([H | H] & Hle & Hall).
      * split; [left; exact H |].
        split; [exact Hle |]. constructor; [lra | exact Hall].
      * split; [right; right; exact H |].
        split; [exact Hle |]. constructor; [lra | exact Hall].
Qed.

Lemma min_fold_spec (rest : list Q) :
  forall best,
    let r := fold_left (fun best y => if Qlt_bool y best then y else best)
                       rest best in
    (r = best \/ In r rest) /\ (r <= best)%Q
    /\ Forall (fun y => (r <= y)%Q) rest.
Proof.
  induction rest as [| a rest IH]; intros best; cbn [fold_left].
  - split; [left; reflexivity |]. split; [lra | constructor].
  - destruct (Qlt_bool a best) eqn:E.
    + apply Qlt_bool_iff in E.
      destruct (IH a) as ([H | H] & Hle & Hall).
      * split; [right; left; symmetry; exact H |].
        split; [lra |]. constructor; [exact Hle | exact Hall].
      * split; [right; right; exact H |].
        split; [lra |]. constructor; [exact Hle | exact Hall].
    + apply Qlt_bool_false_iff in E.
      destruct (IH best) as ([H | H] & Hle & Hall).
      * split; [left; exact H |].
        split; [exact Hle |]. constructor; [lra | exact Hall].
      * split; [right; right; exact H |].
        split; [exact Hle |]. constructor; [lra | exact Hall].
Qed.

(** [max(xs)] is an element of a non-empty [xs], and no element is
    greater. *)
Lemma max_of_spec (xs : list Q) :
  xs <> [] -> In (max_of xs) xs /\ Forall (fun y => (y <= max_of xs)%Q) xs.
Proof.
  destruct xs as [| x rest]; [congruence |]. intros _.
  unfold max_of. destruct (max_fold_spec rest x) as ([H | H] & Hle & Hall).
  - split; [left; symmetry; exact H |]. constructor; assumption.
  - split; [right; exact H |]. constructor; assumption.
Qed.

Lemma min_of_spec (xs : list Q) :
  xs <> [] -> In (min_of xs) xs /\ Forall (fun y => (min_of xs <= y)%Q) xs.
Proof.
  destruct xs as [| x rest]; [congruence |]. intros _.
  unfold min_of. destruct (min_fold_spec rest x) as ([H | H] & Hle & Hall).
  - split; [left; symmetry; exact H |]. constructor; assumption.
  - split; [right; exact H |]. constructor; assumption.
Qed.

(** The range of scores that all lie between [lo] and [hi]. *)
Lemma score_range_bounds (xs : list Q) (lo hi : Q) :
  xs <> [] ->
  Forall (fun x => (lo <= x /\ x <= hi)%Q) xs ->
  (0 <= max_of xs - min_of xs /\ max_of xs - min_of xs <= hi - lo)%Q.
Proof.
  intros Hne Hall.
  destruct (max_of_spec xs Hne) as (Hmax & _).
  destruct (min_of_spec xs Hne) as (Hmin & Hle).
  rewrite Forall_forall in Hall, Hle.
  pose proof (Hle _ Hmax). pose proof (Hall _ Hmax). pose proof (Hall _ Hmin).
  lra.
Qed.


Section VarianceFacts.
Context {py : PythonRuntime}.
Variable settings : GradingEngine.Settings.
Variable generate : nat -> result string.
Variables uuid4 utcnow : nat -> N.


(** X14. When the scores of all the passes equal that of the first
    one and the threshold of the settings is not negative,
    [_select_result] returns the result of the first pass and detects
    no variance. *)
Theorem agreeing_passes_select_the_first
        (first : GradingEngine.GradingPass)
        (rest : list GradingEngine.GradingPass) :
  (0 <= GradingEngine.max_variance_percent settings)%Q ->
  Forall (fun p => (GradingEngine.total_score p
                    == GradingEngine.total_score first)%Q) rest ->
  GradingEngine._select_result settings (first :: rest)
  = Ok (GradingEngine.result_ first, false)
  /\ (GradingEngine._calculate_variance (first :: rest) == 0)%Q.
Proof.
  intros Hthr Hall.
  assert (Hvar : (GradingEngine._calculate_variance (first :: rest) == 0)%Q).
  { unfold GradingEngine._calculate_variance.
    destruct (_ <? 2); [reflexivity |].
    destruct (Qeq_bool _ 0) eqn:E; [reflexivity |].
    apply Qeq_bool_neq in E.
    assert (Hr : (0 <= max_of (map GradingEngine.total_score (first :: rest))
                       - min_of (map GradingEngine.total_score (first :: rest))
                  /\ max_of (map GradingEngine.total_score (first :: rest))
                     - min_of (map GradingEngine.total_score (first :: rest))
                     <= GradingEngine.total_score first
                        - GradingEngine.total_score first)%Q).
    { apply score_range_bounds; [discriminate |].
      apply Forall_map. constructor; [lra |].
      revert Hall. apply Forall_impl. intros p Hp. lra. }
    assert (Hz : (max_of (map GradingEngine.total_score (first :: rest))
                  - min_of (map GradingEngine.total_score (first :: rest))
                  == 0)%Q) by lra.
    rewrite Hz. field. exact E. }
  split; [| exact Hvar].
  unfold GradingEngine._select_result.
  destruct rest as [| second rest']; [reflexivity |].
  destruct (median_defined (map GradingEngine.total_score
                                (first :: second :: rest')))
    as (m & Hm); [discriminate |].
  rewrite Hm. cbn [bind].
  assert (Hd : Qlt_bool (GradingEngine.max_variance_percent settings)
                 (GradingEngine._calculate_variance (first :: second :: rest'))
               = false).
  { apply Qlt_bool_false_iff. rewrite Hvar. exact Hthr. }
  rewrite Hd. f_equal. f_equal.
  unfold min_by. revert Hall. generalize (second :: rest').
  intros l. induction 1 as [| p l Hp _ IH]; cbn [fold_left]; [reflexivity |].
  assert (Hk : Qlt_bool (Qabs (GradingEngine.total_score p - m))
                 (Qabs (GradingEngine.total_score first - m)) = false).
  { apply Qlt_bool_false_iff. rewrite Hp. lra. }
  rewrite Hk. exact IH.
Qed.

End VarianceFacts.


Lemma agreeing_passes_select_the_first_witness :
  GradingEngine._select_result Sample.settings
    [Sample.pass 0 "{85}" 85; Sample.pass 1 "{85.0}" (170 # 2);
     Sample.pass 2 "{85}" 85]
  = Ok (GradingEngine.result_ (Sample.pass 0 "{85}" 85), false).
Proof.
  refine (proj1 (agreeing_passes_select_the_first Sample.settings
                   (Sample.pass 0 "{85}" 85)
                   [Sample.pass 1 "{85.0}" (170 # 2); Sample.pass 2 "{85}" 85]
                   _ _)).
  - cbn. lra.
  - repeat constructor.
Defined.

(* ================================================================== *)
(** * The extraction of the JSON text from a response *)
(* ================================================================== *)




Lemma count_char_app (c : ascii) (s t : string) :
  count_char c (s ++ t) = count_char c s + count_char c t.
Proof.
  induction s as [| a s IH]; cbn [String.append count_char]; [reflexivity |].
  rewrite IH. lia.
Qed.





(* ================================================================== *)
(** * The retries of the client of the language model *)
(* ================================================================== *)

Section RetryFacts.
Variable settings : GradingEngine.Settings.
Variable create : nat -> LLMClient.request -> LLMClient.api_outcome.

Lemma retry_loop_again req n attempt slept :
  transient (create attempt req) = true ->
  attempt < 3 ->
  LLMClient._retry_loop create req (S n) attempt slept
  = LLMClient._retry_loop create req n (S attempt)
      (slept ++ [LLMClient._calculate_delay attempt]).
Proof.
  intros Ht Ha. cbn [LLMClient._retry_loop].
  assert (Hlt : (attempt <? LLMClient._max_retries) = true)
    by (apply Nat.ltb_lt; exact Ha).
  destruct (create attempt req) as [choices | | | status_code message | text];
    cbn [transient] in Ht; try discriminate; rewrite ?Hlt; try reflexivity.
  destruct (_ && _ && negb _) eqn:E; [| reflexivity].
  exfalso. apply andb_true_iff in E. destruct E as [E E3].
  apply andb_true_iff in E. destruct E as [E1 E2].
  apply negb_true_iff in E3.
  apply orb_true_iff in Ht. destruct Ht as [Ht | Ht]; [| congruence].
  apply orb_true_iff in Ht. destruct Ht as [Ht | Ht]; lia.
Qed.

Lemma retry_loop_last req n attempt slept :
  transient (create attempt req) = true ->
  3 <= attempt ->
  exists msg,
    LLMClient._retry_loop create req (S n) attempt slept
    = (LLMClient.Raises (LLMClient.mkLLMError msg true), slept)
    /\ msg <> "Failed after 3 retries".
Proof.
  intros Ht Ha. cbn [LLMClient._retry_loop].
  assert (Hlt : (attempt <? LLMClient._max_retries) = false)
    by (apply Nat.ltb_ge; exact Ha).
  destruct (create attempt req) as [choices | | | status_code message | text];
    cbn [transient] in Ht; try discriminate; rewrite ?Hlt.
  - eexists. split; [reflexivity | discriminate].
  - eexists. split; [reflexivity | discriminate].
  - destruct (_ && _ && negb _) eqn:E.
    + exfalso. apply andb_true_iff in E. destruct E as [E E3].
      apply andb_true_iff in E. destruct E as [E1 E2].
      apply negb_true_iff in E3.
      apply orb_true_iff in Ht. destruct Ht as [Ht | Ht]; [| congruence].
      apply orb_true_iff in Ht. destruct Ht as [Ht | Ht]; lia.
    + eexists. split; [reflexivity | discriminate].
Qed.

Lemma retry_loop_final req n attempt slept :
  transient (create attempt req) = false ->
  exists r,
    LLMClient._retry_loop create req (S n) attempt slept = (r, slept)
    /\ match r with
       | LLMClient.Returns content =>
           content <> ""
           /\ exists others,
                create attempt req
                = LLMClient.Response (Some content :: others)
       | LLMClient.Raises e =>
           LLMClient.retryable e = false
           /\ LLMClient.message e <> "Failed after 3 retries"
       end.
Proof.
  intros Ht. cbn [LLMClient._retry_loop].
  destruct (create attempt req) as [choices | | | status_code message | text];
    cbn [transient] in Ht; try discriminate.
  - destruct choices as [| [content |] others].
    + eexists. split; [reflexivity |]. split; [reflexivity | discriminate].
    + destruct (nonempty content) eqn:E.
      * eexists. split; [reflexivity |]. split; [| eauto].
        intros ->. discriminate.
      * eexists. split; [reflexivity |]. split; [reflexivity | discriminate].
    + eexists. split; [reflexivity |]. split; [reflexivity | discriminate].
  - destruct (_ && _ && negb _) eqn:E.
    + eexists. split; [reflexivity |]. split; [reflexivity | discriminate].
    + exfalso.
      apply orb_false_iff in Ht. destruct Ht as [Ht H3].
      apply orb_false_iff in Ht. destruct Ht as [H1 H2].
      apply andb_false_iff in E. destruct E as [E | E].
      * apply andb_false_iff in E. destruct E as [E | E]; lia.
      * apply negb_false_iff in E. congruence.
  - eexists. split; [reflexivity |]. split; [reflexivity | discriminate].
Qed.

(** The attempts that fail transiently are passed over, each after its
    delay. *)
Lemma retry_loop_skips req k :
  forall n attempt slept,
    attempt + k <= 3 ->
    (forall j, attempt <= j < attempt + k -> transient (create j req) = true) ->
    LLMClient._retry_loop create req (k + n) attempt slept
    = LLMClient._retry_loop create req n (attempt + k)
        (slept ++ map LLMClient._calculate_delay (seq attempt k)).
Proof.
  induction k as [| k IH]; intros n attempt slept Hk Hall.
  - cbn [seq map plus]. rewrite app_nil_r, Nat.add_0_r. reflexivity.
  - cbn [plus]. rewrite retry_loop_again by (try apply Hall; lia).
    rewrite IH by (try lia; intros j Hj; apply Hall; lia).
    cbn [seq map]. rewrite <- app_assoc. cbn [app].
    replace (S attempt + k) with (attempt + S k) by lia. reflexivity.
Qed.

Lemma delays_of_retries (k : nat) :
  k <= 3 ->
  map LLMClient._calculate_delay (seq 0 k) = firstn k [1%Q; 2%Q; 4%Q].
Proof.
  intros Hk. destruct k as [| [| [| [| k]]]]; try reflexivity. lia.
Qed.

Lemma call_with_retry_skips messages temperature max_tokens k :
  k <= 3 ->
  (forall j, j < k ->
     transient (create j (request_of settings messages temperature max_tokens))
     = true) ->
  LLMClient._call_with_retry settings create messages temperature max_tokens
  = LLMClient._retry_loop create
      (request_of settings messages temperature max_tokens)
      (4 - k) k (firstn k [1%Q; 2%Q; 4%Q]).
Proof.
  intros Hk Hall. unfold LLMClient._call_with_retry.
  fold (request_of settings messages temperature max_tokens).
  replace (LLMClient._max_retries + 1) with (k + (4 - k))
    by (unfold LLMClient._max_retries; lia).
  rewrite retry_loop_skips by (try lia; intros j Hj; apply Hall; lia).
  cbn [plus app]. rewrite delays_of_retries by exact Hk. reflexivity.
Qed.

(** X16. Whatever the calls of the API give, [_call_with_retry] makes
    at most four of them: it passes over the first [k <= 3] calls, which
    all fail transiently, sleeping 1, 2 and 4 seconds after them, and the
    call after those decides.  A text that it returns is the content,
    not empty, of the first choice of that call's response.  An error
    that it raises is retryable exactly when all four calls failed
    transiently, and is never the error that follows the loop. *)
Theorem call_with_retry_outcome
        (messages : list (string * string)) (temperature : Q) (max_tokens : Z) :
  let req := request_of settings messages temperature max_tokens in
  let run :=
    LLMClient._call_with_retry settings create messages temperature max_tokens in
  exists k,
    k <= 3
    /\ snd run = firstn k [1%Q; 2%Q; 4%Q]
    /\ (forall j, j < k -> transient (create j req) = true)
    /\ (k < 3 -> transient (create k req) = false)
    /\ match fst run with
       | LLMClient.Returns content =>
           content <> ""
           /\ exists others,
                create k req = LLMClient.Response (Some content :: others)
       | LLMClient.Raises e =>
           LLMClient.message e <> "Failed after 3 retries"
           /\ (LLMClient.retryable e = true
               <-> k = 3 /\ transient (create 3 req) = true)
       end.
Proof.
  intros req run.
  assert (Hfinal : forall k,
             k <= 3 ->
             (forall j, j < k -> transient (create j req) = true) ->
             transient (create k req) = false ->
             exists k,
               k <= 3
               /\ snd run = firstn k [1%Q; 2%Q; 4%Q]
               /\ (forall j, j < k -> transient (create j req) = true)
               /\ (k < 3 -> transient (create k req) = false)
               /\ match fst run with
                  | LLMClient.Returns content =>
                      content <> ""
                      /\ exists others,
                           create k req
                           = LLMClient.Response (Some content :: others)
                  | LLMClient.Raises e =>
                      LLMClient.message e <> "Failed after 3 retries"
                      /\ (LLMClient.retryable e = true
                          <-> k = 3 /\ transient (create 3 req) = true)
                  end).
  { intros k Hk Hbefore Hk'. exists k.
    unfold run. rewrite (call_with_retry_skips _ _ _ k Hk Hbefore).
    fold req. replace (4 - k) with (S (3 - k)) by lia.
    destruct (retry_loop_final req (3 - k) k (firstn k [1%Q; 2%Q; 4%Q]) Hk')
      as (r & -> & Hr).
    cbn [fst snd]. repeat split; auto.
    destruct r as [content | e]; [exact Hr |].
    destruct Hr as (Hr & Hm). split; [exact Hm |].
    rewrite Hr. split; [discriminate |].
    intros [-> Ht]. congruence. }
  destruct (transient (create 0 req)) eqn:T0;
    [| apply (Hfinal 0); [lia | intros j Hj; lia | exact T0]].
  destruct (transient (create 1 req)) eqn:T1;
    [| apply (Hfinal 1);
       [lia | intros j Hj; destruct j as [| j]; [exact T0 | lia]
        | exact T1]].
  destruct (transient (create 2 req)) eqn:T2;
    [| apply (Hfinal 2);
       [lia
        | intros j Hj; destruct j as [| [| j]]; [exact T0 | exact T1 | lia]
        | exact T2]].
  assert (Hbefore : forall j, j < 3 -> transient (create j req) = true).
  { intros j Hj. destruct j as [| [| [| j]]]; [assumption .. | lia]. }
  destruct (transient (create 3 req)) eqn:T3;
    [| apply (Hfinal 3); [lia | exact Hbefore | exact T3]].
  exists 3. unfold run.
  rewrite (call_with_retry_skips _ _ _ 3 (le_n 3) Hbefore). fold req.
  change (4 - 3) with 1.
  destruct (retry_loop_last req 0 3 (firstn 3 [1%Q; 2%Q; 4%Q]) T3 (le_n 3))
    as (msg & -> & Hmsg).
  cbn [fst snd Nat.sub]. repeat split; auto; lia.
Qed.

(** X17. When the calls before the call [k <= 3] fail transiently and
    the first choice of the response of that call has a content that is
    not empty, [_call_with_retry] returns that content, after sleeping
    1, 2 and 4 seconds after the failed calls. *)
Theorem retry_returns_first_content
        (messages : list (string * string)) (temperature : Q) (max_tokens : Z)
        (k : nat) (content : string) (others : list (option string)) :
  let req := request_of settings messages temperature max_tokens in
  k <= 3 ->
  (forall j, j < k -> transient (create j req) = true) ->
  create k req = LLMClient.Response (Some content :: others) ->
  content <> "" ->
  LLMClient._call_with_retry settings create messages temperature max_tokens
  = (LLMClient.Returns content, firstn k [1%Q; 2%Q; 4%Q]).
Proof.
  intros req Hk Hbefore Hresp Hne.
  rewrite (call_with_retry_skips _ _ _ k Hk Hbefore). fold req.
  replace (4 - k) with (S (3 - k)) by lia.
  cbn [LLMClient._retry_loop]. rewrite Hresp.
  destruct content; [congruence | reflexivity].
Qed.

(** X18. The failures that [_call_with_retry] does not pass over, at a
    call [k <= 3] that follows transient failures: a status error with a
    4xx code other than 429 raises at once the error of its message,
    and a response without choices, without content or with an empty
    content raises at once the unexpected error of an empty response;
    neither is retryable.  When the four calls all fail transiently,
    the error is retryable and the delays were 1, 2 and 4 seconds. *)
Theorem retry_failures
        (messages : list (string * string)) (temperature : Q) (max_tokens : Z)
        (k : nat) :
  let req := request_of settings messages temperature max_tokens in
  let run :=
    LLMClient._call_with_retry settings create messages temperature max_tokens in
  k <= 3 ->
  (forall j, j < k -> transient (create j req) = true) ->
  (forall status_code message,
      create k req = LLMClient.APIStatusError status_code message ->
      (400 <= status_code < 500)%Z -> status_code <> 429%Z ->
      run = (LLMClient.Raises
               (LLMClient.mkLLMError ("API error: " ++ message) false),
             firstn k [1%Q; 2%Q; 4%Q]))
  /\ (forall choices,
         create k req = LLMClient.Response choices ->
         hd None choices = None \/ hd None choices = Some "" ->
         run = (LLMClient.Raises
                  (LLMClient.mkLLMError
                     "Unexpected error: Empty response from LLM" false),
                firstn k [1%Q; 2%Q; 4%Q]))
  /\ (k = 3 -> transient (create 3 req) = true ->
      exists msg,
        run = (LLMClient.Raises (LLMClient.mkLLMError msg true),
               [1%Q; 2%Q; 4%Q])).
Proof.
  intros req run Hk Hbefore. unfold run.
  rewrite (call_with_retry_skips _ _ _ k Hk Hbefore). fold req.
  replace (4 - k) with (S (3 - k)) by lia.
  split; [| split].
  - intros status_code message Hc Hrange H429.
    cbn [LLMClient._retry_loop]. rewrite Hc.
    replace ((400 <=? status_code)%Z && (status_code <? 500)%Z
             && negb (status_code =? 429)%Z) with true; [reflexivity |].
    symmetry. apply andb_true_iff. split; [apply andb_true_iff; split |].
    + apply Z.leb_le. lia.
    + apply Z.ltb_lt. lia.
    + apply negb_true_iff, Z.eqb_neq, H429.
  - intros choices Hc Hhd. cbn [LLMClient._retry_loop]. rewrite Hc.
    destruct choices as [| [content |] others]; cbn [hd] in Hhd.
    + reflexivity.
    + destruct Hhd as [Hhd | Hhd]; [discriminate |].
      injection Hhd as ->. reflexivity.
    + reflexivity.
  - intros -> T3.
    destruct (retry_loop_last req 0 3 (firstn 3 [1%Q; 2%Q; 4%Q]) T3 (le_n 3))
      as (msg & Hrun & _).
    exists msg. exact Hrun.
Qed.

End RetryFacts.

Lemma retry_returns_first_content_witness :
  LLMClient._call_with_retry Sample.settings create_flaky
    [("system", "Grade strictly."); ("user", "An answer.")] 0 8192
  = (LLMClient.Returns "{85}", [1%Q; 2%Q]).
Proof.
  refine (retry_returns_first_content Sample.settings create_flaky
            [("system", "Grade strictly."); ("user", "An answer.")] 0 8192
            2 "{85}" [] _ _ _ _).
  - lia.
  - intros j Hj. destruct j as [| [| j]]; [reflexivity | reflexivity | lia].
  - reflexivity.
  - discriminate.
Defined.

Lemma retry_failures_witness :
  exists msg,
    LLMClient._call_with_retry Sample.settings create_down
      [("system", "Grade strictly."); ("user", "An answer.")] 0 8192
    = (LLMClient.Raises (LLMClient.mkLLMError msg true), [1%Q; 2%Q; 4%Q]).
Proof.
  refine (proj2 (proj2
            (retry_failures Sample.settings create_down
               [("system", "Grade strictly."); ("user", "An answer.")] 0 8192
               3 _ _)) _ _).
  - lia.
  - intros j Hj.
    destruct j as [| [| [| j]]]; [reflexivity | reflexivity | reflexivity | lia].
  - reflexivity.
  - reflexivity.
Defined.

(* ================================================================== *)
(** * The parser followed by the validator *)
(* ================================================================== *)

Lemma validate_criterion_of_valid (c : RubricCriterion.t) (index : nat) :
  RubricCriterion.valid c = true ->
  Forall may_follow_parse (RubricValidator._validate_criterion c index).
Proof.
  intros Hv. unfold RubricCriterion.valid in Hv.
  apply andb_true_iff in Hv. destruct Hv as [_ Hmax].
  apply Qle_bool_iff in Hmax.
  unfold RubricValidator._validate_criterion.
  repeat (apply Forall_app; split).
  - destruct (_ <? 2); repeat constructor.
  - destruct (_ <? RubricValidator.MIN_DESCRIPTION_LENGTH); repeat constructor.
  - destruct (RubricValidator.vague_found c); repeat constructor.
  - replace (Qlt_bool RubricValidator.MAX_POINTS_PER_CRITERION
               (RubricCriterion.max_points c)) with false; [constructor |].
    symmetry. apply Qlt_bool_false_iff. exact Hmax.
Qed.

Lemma check_duplicates_from_issues (cs : list RubricCriterion.t) :
  forall i seen,
    Forall may_follow_parse (RubricValidator._check_duplicates_from i seen cs).
Proof.
  induction cs as [| c cs IH]; intros i seen;
    cbn [RubricValidator._check_duplicates_from]; [constructor |].
  destruct (RubricValidator.lookup _ seen); [constructor; [exact I |] |];
    apply IH.
Qed.

(** X19. For a rubric that [parse] returned, [validate] never reports
    that the rubric has no criteria, that the total is not positive, or
    that the points of a criterion exceed the maximum: the parser and
    the models have excluded these. *)
Theorem parsed_rubric_issues (content title : string) (rubric : Rubric.t) :
  RubricParser.parse content title = Ok rubric ->
  Forall may_follow_parse (snd (RubricValidator.validate rubric)).
Proof.
  intros H. apply parse_Ok_facts in H.
  destruct H as (Hne & Hvalid & _ & _ & Htotal).
  unfold RubricValidator.validate. cbn [snd].
  apply Forall_app; split;
    [| apply Forall_app; split; [| apply Forall_app; split]].
  - unfold RubricValidator._validate_structure. apply Forall_app. split.
    + destruct (nonempty _); repeat constructor.
    + destruct (Rubric.criteria rubric); [congruence | constructor].
  - clear Hne Htotal. generalize 1.
    induction Hvalid as [| c cs Hc _ IH]; intros i;
      cbn [RubricValidator._validate_criteria_from]; [constructor |].
    apply Forall_app. split; [apply validate_criterion_of_valid, Hc | apply IH].
  - apply check_duplicates_from_issues.
  - unfold RubricValidator._validate_total_points. apply Forall_app. split.
    + destruct (Qle_bool _ 0) eqn:E; [| constructor].
      apply Qle_bool_iff in E. lra.
    + destruct (Qlt_bool 1000 _); repeat constructor.
Qed.

Lemma parsed_rubric_issues_witness :
  Forall may_follow_parse
    (snd (RubricValidator.validate
            (Rubric.mk "Essay Rubric" "" [Sample.Clarity]))).
Proof.
  apply (parsed_rubric_issues
           ("Essay Rubric" ++ String RubricParser.newline Sample.LINE)%string
           "Grading Rubric").
  reflexivity.
Defined.

(* ================================================================== *)
(** * The percentage of a criterion *)
(* ================================================================== *)

(** X20. The percentage of a [CriterionResult] that its constructor
    returns lies between 0 and 100, also when the criterion has no
    points to award. *)
Theorem criterion_percentage_bounds
        (n : string) (m a : Q) (j : string) (d : option string)
        (r : CriterionResult.t) :
  CriterionResult.new n m a j d = Ok r ->
  (0 <= CriterionResult.percentage r
   /\ CriterionResult.percentage r <= 100)%Q.
Proof.
  intros H. unfold CriterionResult.new in H.
  destruct (CriterionResult.valid _) eqn:Hv; [| discriminate].
  injection H as <-.
  apply CriterionResult_valid_bounds in Hv.
  cbn [CriterionResult.awarded_points CriterionResult.max_points] in Hv.
  unfold CriterionResult.percentage.
  cbn [CriterionResult.awarded_points CriterionResult.max_points].
  destruct (Qeq_bool m 0) eqn:E; [lra |].
  apply Qeq_bool_neq in E.
  apply percentage_bounds; [tauto | tauto | exact E].
Qed.

Lemma criterion_percentage_bounds_witness :
  (0 <= CriterionResult.percentage
          (CriterionResult.mk "Overall" 100 85 "Quoted from the answer." None)
   /\ CriterionResult.percentage
        (CriterionResult.mk "Overall" 100 85 "Quoted from the answer." None)
      <= 100)%Q.
Proof.
  apply (criterion_percentage_bounds "Overall" 100 85
           "Quoted from the answer." None).
  reflexivity.
Defined.
